(** * FRA WebGIS: the in-memory filtering and aggregation engine

    A shallow embedding of [FRAWebGISManager] and of the request handlers
    of [app_fra_webgis.py] that call it, with the properties of its query
    operations.

    Conventions of the embedding.
    - A Python value is a [pyval].  [PNone] stands for every missing value
      of the program ([None], the float NaN, pandas' NaT): the code itself
      merges them through [pd.isna].
    - Numbers are exact rationals: the rounding of binary floats and the
      wrap-around of 64-bit integers are not modelled, only the arithmetic
      the code asks for.  A property that depends on the value of a sum, of
      a comparison or of a number read from a file is stated for numbers on
      which the two agree ([exact_areas], [exact_table], [exact_number]).
    - A cell of the table is not a list when a property speaks of the
      features built from it ([no_list_property]): the text Python gives
      for a list is not modelled.
    - A raised exception is a value of [exn]; a computation that may raise
      returns a [result].
    - A method of the manager is a function from the store to a result and
      the store it leaves behind. *)

From Stdlib Require Import List String Ascii ZArith QArith Qround Qabs Lia Bool.
From Stdlib Require Import Permutation Sorted.
Import ListNotations.
Local Open Scope string_scope.
Local Open Scope Z_scope.
Local Open Scope list_scope.
Local Set Warnings "-register-all".

(** ** Python values *)

Module Py.

Record Timestamp : Type := mkTimestamp
  { ts_year : Z; ts_month : Z; ts_day : Z }.

Inductive pyval : Type :=
| PNone
| PBool (b : bool)
| PNum (q : Q)
| PStr (s : string)
| PTime (t : Timestamp)
| PList (l : list pyval)
| PDict (kv : list (pyval * pyval)).

(** The hashable, non-missing values: what a criterion or a group key can
    be. *)
Inductive scalar : Type :=
| SBool (b : bool)
| SNum (q : Q)
| SStr (s : string)
| STime (t : Timestamp).

(** The value of Python's [float()]. *)
Inductive pyfloat : Type :=
| Fin (q : Q)
| PosInf
| NegInf
| NaN.

(** The exceptions the program meets.  The text of a message is the one
    Python gives where the program shows it to the caller ([KeyError],
    the [ValueError] of [float()]); elsewhere it is indicative. *)
Inductive exn : Type :=
| KeyError (key : string)
| ValueError (msg : string)
| TypeError (msg : string)
| AttributeError (msg : string)
| OSError (msg : string).

Inductive result (A : Type) : Type :=
| Ok (a : A)
| Raise (e : exn).

Arguments Ok {A} a.
Arguments Raise {A} e.

Definition bind {A B : Type} (r : result A) (k : A -> result B) : result B :=
  match r with
  | Ok a => k a
  | Raise e => Raise e
  end.

Fixpoint mapM {A B : Type} (f : A -> result B) (l : list A) : result (list B) :=
  match l with
  | [] => Ok []
  | x :: t =>
      match f x with
      | Ok y =>
          match mapM f t with
          | Ok ys => Ok (y :: ys)
          | Raise e => Raise e
          end
      | Raise e => Raise e
      end
  end.

Definition timestamp_eqb (s t : Timestamp) : bool :=
  (ts_year s =? ts_year t) && (ts_month s =? ts_month t) && (ts_day s =? ts_day t).

Definition bool_num (b : bool) : Q := if b then 1%Q else 0%Q.

Definition py_of_scalar (v : scalar) : pyval :=
  match v with
  | SBool b => PBool b
  | SNum q => PNum q
  | SStr s => PStr s
  | STime t => PTime t
  end.

Definition scalar_of_py (v : pyval) : option scalar :=
  match v with
  | PBool b => Some (SBool b)
  | PNum q => Some (SNum q)
  | PStr s => Some (SStr s)
  | PTime t => Some (STime t)
  | PNone | PList _ | PDict _ => None
  end.

Definition py_of_option (v : option scalar) : pyval :=
  match v with
  | Some s => py_of_scalar s
  | None => PNone
  end.

(** A [bool] is an [int] in Python: [True == 1]. *)
Definition num_of_scalar (v : scalar) : option Q :=
  match v with
  | SBool b => Some (bool_num b)
  | SNum q => Some q
  | SStr _ | STime _ => None
  end.

(** Python's [==] on scalars. *)
Definition scalar_eqb (a b : scalar) : bool :=
  match a, b with
  | SStr s, SStr t => String.eqb s t
  | STime s, STime t => timestamp_eqb s t
  | _, _ =>
      match num_of_scalar a, num_of_scalar b with
      | Some x, Some y => Qeq_bool x y
      | _, _ => false
      end
  end.

(** Truth value of a criterion value [filters[k]]. *)
Definition truthy (v : option scalar) : bool :=
  match v with
  | None => false
  | Some (SBool b) => b
  | Some (SNum q) => negb (Qeq_bool q 0)
  | Some (SStr s) => negb (String.eqb s "")
  | Some (STime _) => true
  end.

Definition single_quote : ascii := ascii_of_nat 39.
Definition double_quote : ascii := ascii_of_nat 34.
Definition backslash : ascii := ascii_of_nat 92.

Fixpoint contains (a : ascii) (s : string) : bool :=
  match s with
  | EmptyString => false
  | String b t => Ascii.eqb a b || contains a t
  end.

Definition hex_digit (n : nat) : ascii :=
  ascii_of_nat (if Nat.ltb n 10 then 48 + n else 87 + n)%nat.

(** One character of a [repr]: a backslash and the quote in use are
    escaped, and so are the control characters. *)
Definition escape (quote a : ascii) : string :=
  let n := nat_of_ascii a in
  if Ascii.eqb a backslash || Ascii.eqb a quote then
    String backslash (String a EmptyString)
  else if Nat.eqb n 9 then String backslash "t"
  else if Nat.eqb n 10 then String backslash "n"
  else if Nat.eqb n 13 then String backslash "r"
  else if Nat.ltb n 32 || Nat.eqb n 127 then
    String backslash
           (String.append "x"
              (String (hex_digit (n / 16)) (String (hex_digit (n mod 16)) EmptyString)))
  else String a EmptyString.

Fixpoint escaped (quote : ascii) (s : string) : string :=
  match s with
  | EmptyString => EmptyString
  | String a t => String.append (escape quote a) (escaped quote t)
  end.

(** [repr] of a string: between single quotes, or between double quotes
    when the string holds a single quote and no double quote.  A byte above
    127 belongs to a character that prints as it is. *)
Definition repr (s : string) : string :=
  let quote :=
    if contains single_quote s && negb (contains double_quote s)
    then double_quote else single_quote in
  String quote (String.append (escaped quote s) (String quote EmptyString)).

(** [str(e)] *)
Definition str_exn (e : exn) : string :=
  match e with
  | KeyError k => repr k
  | ValueError m | TypeError m | AttributeError m | OSError m => m
  end.

(** [float(v)] for a criterion value, given [float] on strings. *)
Definition py_float (float_of_string : string -> option pyfloat) (v : scalar)
  : result pyfloat :=
  match v with
  | SNum q => Ok (Fin q)
  | SBool b => Ok (Fin (bool_num b))
  | SStr s =>
      match float_of_string s with
      | Some f => Ok f
      | None =>
          Raise (ValueError
                   (String.append "could not convert string to float: " (repr s)))
      end
  | STime _ =>
      Raise (TypeError "float() argument must be a string or a real number, not 'Timestamp'")
  end.

(** Lookup in a [dict] with string keys. *)
Fixpoint dict_get (k : string) (kv : list (pyval * pyval)) : option pyval :=
  match kv with
  | [] => None
  | (PStr k', v) :: t => if String.eqb k' k then Some v else dict_get k t
  | _ :: t => dict_get k t
  end.

(** [d[k] = v]: an existing key keeps its place. *)
Fixpoint dict_set (k : string) (v : pyval) (kv : list (pyval * pyval))
  : list (pyval * pyval) :=
  match kv with
  | [] => [(PStr k, v)]
  | (PStr k', v') :: t =>
      if String.eqb k' k then (PStr k', v) :: t
      else (PStr k', v') :: dict_set k v t
  | e :: t => e :: dict_set k v t
  end.

Definition not_subscriptable : exn :=
  TypeError "object is not subscriptable with a string key".

(** [v[k]] for a string key [k]. *)
Definition getitem (v : pyval) (k : string) : result pyval :=
  match v with
  | PDict kv =>
      match dict_get k kv with
      | Some x => Ok x
      | None => Raise (KeyError k)
      end
  | _ => Raise not_subscriptable
  end.

Fixpoint chars (s : string) : list pyval :=
  match s with
  | EmptyString => []
  | String a t => PStr (String a EmptyString) :: chars t
  end.

(** The elements a [for] loop over [v] visits. *)
Definition iter (v : pyval) : result (list pyval) :=
  match v with
  | PList l => Ok l
  | PDict kv => Ok (map fst kv)
  | PStr s => Ok (chars s)
  | PNone | PBool _ | PNum _ | PTime _ => Raise (TypeError "object is not iterable")
  end.

Definition py_int (n : nat) : pyval := PNum (inject_Z (Z.of_nat n)).

End Py.

Export Py.

Declare Scope result_scope.
Delimit Scope result_scope with result.
Notation "x <- r ;; k" := (bind r (fun x => k))
  (at level 61, r at next level, right associativity) : result_scope.
Local Open Scope result_scope.

(** ** The pandas operations the program uses *)

Module Pandas.

(** One record: column name to cell.  A column that the record does not
    have holds a missing cell. *)
Definition row : Type := list (string * pyval).

Record DataFrame : Type := mkDataFrame
  { columns : list string; rows : list row }.

Fixpoint lookup {V : Type} (k : string) (l : list (string * V)) : option V :=
  match l with
  | [] => None
  | (k', v) :: t => if String.eqb k' k then Some v else lookup k t
  end.

Definition cell (c : string) (r : row) : pyval :=
  match lookup c r with
  | Some v => v
  | None => PNone
  end.

(** First occurrences, in order. *)
Fixpoint unique {A : Type} (eqb : A -> A -> bool) (l : list A) : list A :=
  match l with
  | [] => []
  | x :: t => x :: filter (fun y => negb (eqb x y)) (unique eqb t)
  end.

(** [pd.DataFrame(records)]: the columns are the keys of the records in
    order of first appearance; [pd.DataFrame()] and [pd.DataFrame([])] have
    no column and no row.  The cells are kept as they are: a column of
    numbers with a missing entry is a column of floats for pandas, which
    changes an integer that a float does not hold (see [exact_number]). *)
Definition DataFrame_of (records : list row) : DataFrame :=
  mkDataFrame (unique String.eqb (List.concat (map (map fst) records))) records.

Definition empty_frame : DataFrame := mkDataFrame [] [].

Definition len (d : DataFrame) : nat := List.length (rows d).

Definition has_column (d : DataFrame) (c : string) : bool :=
  existsb (String.eqb c) (columns d).

(** [d[c]] *)
Definition col (d : DataFrame) (c : string) : result (list pyval) :=
  if has_column d c then Ok (map (cell c) (rows d)) else Raise (KeyError c).

(** [d[mask]] for a boolean series [mask] aligned with the rows of [d]. *)
Definition mask (d : DataFrame) (m : list bool) : DataFrame :=
  mkDataFrame (columns d) (map fst (filter snd (combine (rows d) m))).

(** [series == v], elementwise; a missing cell compares unequal. *)
Definition cell_eq (v : scalar) (c : pyval) : bool :=
  match scalar_of_py c with
  | Some s => scalar_eqb s v
  | None => false
  end.

(** A cell as the operand of a numeric comparison: missing, a number, or
    not comparable with a float. *)
Definition cell_num (c : pyval) : result (option Q) :=
  match c with
  | PNone => Ok None
  | PNum q => Ok (Some q)
  | PBool b => Ok (Some (bool_num b))
  | PStr _ => Raise (TypeError "'>=' not supported between instances of 'str' and 'float'")
  | PTime _ => Raise (TypeError "Invalid comparison between dtype=datetime64[ns] and float")
  | PList _ => Raise (TypeError "'>=' not supported between instances of 'list' and 'float'")
  | PDict _ => Raise (TypeError "'>=' not supported between instances of 'dict' and 'float'")
  end.

Definition float_le (x y : pyfloat) : bool :=
  match x, y with
  | NaN, _ | _, NaN => false
  | NegInf, _ | _, PosInf => true
  | PosInf, _ | _, NegInf => false
  | Fin a, Fin b => Qle_bool a b
  end.

(** [series >= bound] *)
Definition cell_ge (bound : pyfloat) (c : pyval) : result bool :=
  n <- cell_num c ;;
  Ok match n with
     | Some q => float_le bound (Fin q)
     | None => false
     end.

(** [series <= bound] *)
Definition cell_le (bound : pyfloat) (c : pyval) : result bool :=
  n <- cell_num c ;;
  Ok match n with
     | Some q => float_le (Fin q) bound
     | None => false
     end.

Definition is_na (v : pyval) : bool :=
  match v with
  | PNone => true
  | _ => false
  end.

Definition dropna (c : list pyval) : list pyval :=
  filter (fun v => negb (is_na v)) c.

(** A value as a number: [bool] is an [int]. *)
Definition number (v : pyval) : option Q :=
  match v with
  | PNum q => Some q
  | PBool b => Some (bool_num b)
  | _ => None
  end.

(** Python's [+]. *)
Definition py_add (a b : pyval) : result pyval :=
  match a, b with
  | PStr s, PStr t => Ok (PStr (String.append s t))
  | PList x, PList y => Ok (PList (x ++ y))
  | _, _ =>
      match number a, number b with
      | Some x, Some y => Ok (PNum (x + y))
      | _, _ => Raise (TypeError "unsupported operand type(s) for +")
      end
  end.

(** [series.sum()] and the grouped ['sum']: the missing cells are skipped,
    the others are added with [+]; nothing to add gives 0.  The sum is the
    exact one: it is the sum pandas computes when the numbers are added
    without rounding and without overflow (see [exact_areas]). *)
Definition series_sum (c : list pyval) : result pyval :=
  match dropna c with
  | [] => Ok (PNum 0)
  | x :: t =>
      fold_left (fun acc v => a <- acc ;; py_add a v) t
                (Ok match x with
                    | PBool b => PNum (bool_num b)
                    | _ => x
                    end)
  end.

Definition qsum (l : list Q) : Q := fold_right Qplus 0%Q l.

Definition as_number (v : pyval) : result Q :=
  match number v with
  | Some q => Ok q
  | None => Raise (TypeError "could not convert to numeric")
  end.

(** [series.mean()]: the mean of the cells that are not missing, NaN when
    there is none. *)
Definition series_mean (c : list pyval) : result pyval :=
  qs <- mapM as_number (dropna c) ;;
  Ok match qs with
     | [] => PNone
     | _ => PNum (qsum qs / inject_Z (Z.of_nat (List.length qs)))
     end.

(** ['count']: the number of cells that are not missing. *)
Definition series_count (c : list pyval) : result pyval :=
  Ok (py_int (List.length (dropna c))).

(** [(x == v).sum()] *)
Definition count_eq (v : scalar) (c : list pyval) : result pyval :=
  Ok (py_int (List.length (filter (cell_eq v) c))).

(** A cell as a key of a hash table: missing, a scalar, or unhashable. *)
Definition group_key (v : pyval) : result (option scalar) :=
  match v with
  | PNone => Ok None
  | PList _ => Raise (TypeError "unhashable type: 'list'")
  | PDict _ => Raise (TypeError "unhashable type: 'dict'")
  | _ => Ok (scalar_of_py v)
  end.

Fixpoint present {A : Type} (l : list (option A)) : list A :=
  match l with
  | [] => []
  | Some x :: t => x :: present t
  | None :: t => present t
  end.

Fixpoint insert {A : Type} (leb : A -> A -> bool) (x : A) (l : list A) : list A :=
  match l with
  | [] => [x]
  | y :: t => if leb x y then x :: y :: t else y :: insert leb x t
  end.

(** A stable sort. *)
Definition sort {A : Type} (leb : A -> A -> bool) (l : list A) : list A :=
  fold_right (insert leb) [] l.

(** The order of group keys: numbers by value, strings by code point,
    timestamps by date; between kinds, numbers first and timestamps last. *)
Definition timestamp_leb (s t : Timestamp) : bool :=
  if ts_year s =? ts_year t then
    if ts_month s =? ts_month t then ts_day s <=? ts_day t
    else ts_month s <? ts_month t
  else ts_year s <? ts_year t.

Definition scalar_leb (a b : scalar) : bool :=
  match a, b with
  | SStr s, SStr t => String.leb s t
  | STime s, STime t => timestamp_leb s t
  | SStr _, STime _ => true
  | STime _, SStr _ => false
  | _, _ =>
      match num_of_scalar a, num_of_scalar b with
      | Some x, Some y => Qle_bool x y
      | Some _, None => true
      | None, _ => false
      end
  end.

(** The groups of [groupby]: the distinct keys that are not missing, in
    increasing order. *)
Definition group_keys (keys : list (option scalar)) : list scalar :=
  sort scalar_leb (unique scalar_eqb (present keys)).

Definition in_group (g : scalar) (v : pyval) : bool := cell_eq g v.

(** [series.value_counts().to_dict()]: for each distinct value that is not
    missing its number of occurrences, the most frequent first. *)
Definition value_counts (c : list pyval) : result pyval :=
  keys <- mapM group_key c ;;
  let counted :=
    map (fun k => (k, List.length (filter (in_group k) c)))
        (unique scalar_eqb (present keys)) in
  Ok (PDict (map (fun kn => (py_of_scalar (fst kn), py_int (snd kn)))
                 (sort (fun a b => Nat.leb (snd b) (snd a)) counted))).

(** One entry of the dict given to [agg], with the name [rename] gives to
    the resulting column. *)
Record aggregation : Type := mkAgg
  { agg_column : string;
    agg_fun : list pyval -> result pyval;
    agg_name : string }.

(** [d.groupby(by).agg({...}).rename(columns={...}).to_dict('index')] *)
Definition groupby_agg (d : DataFrame) (by_ : string) (aggs : list aggregation)
  : result pyval :=
  kc <- col d by_ ;;
  keys <- mapM group_key kc ;;
  _ <- mapM (fun a => col d (agg_column a)) aggs ;;
  groups <-
    mapM (fun g =>
            let members := filter (fun r => in_group g (cell by_ r)) (rows d) in
            entries <-
              mapM (fun a =>
                      v <- agg_fun a (map (cell (agg_column a)) members) ;;
                      Ok (PStr (agg_name a), v))
                   aggs ;;
            Ok (py_of_scalar g, PDict entries))
         (group_keys keys) ;;
  Ok (PDict groups).

(** [d[c] = values] *)
Fixpoint row_set (c : string) (v : pyval) (r : row) : row :=
  match r with
  | [] => [(c, v)]
  | (k, w) :: t =>
      if String.eqb k c then (k, v) :: t else (k, w) :: row_set c v t
  end.

Definition set_column (d : DataFrame) (c : string) (values : list pyval)
  : DataFrame :=
  mkDataFrame
    (if has_column d c then columns d else columns d ++ [c])
    (map (fun rv => row_set c (snd rv) (fst rv)) (combine (rows d) values)).

(** [series.dt.year] and [series.dt.month] *)
Definition dt_field (f : Timestamp -> Z) (v : pyval) : result pyval :=
  match v with
  | PNone => Ok PNone
  | PTime t => Ok (PNum (inject_Z (f t)))
  | _ => Raise (AttributeError "Can only use .dt accessor with datetimelike values")
  end.

(** [d[series]] for a series of booleans; any other series is not a mask. *)
Definition bool_mask (c : list pyval) : result (list bool) :=
  mapM (fun v =>
          match v with
          | PBool b => Ok b
          | PNone =>
              Raise (ValueError "Cannot mask with non-boolean array containing NA / NaN values")
          | _ => Raise (KeyError "not in index")
          end) c.

(** [series.unique().tolist()]: first occurrences, a missing value
    included. *)
Definition option_scalar_eqb (a b : option scalar) : bool :=
  match a, b with
  | Some x, Some y => scalar_eqb x y
  | None, None => true
  | _, _ => false
  end.

Definition series_unique (c : list pyval) : result (list pyval) :=
  keys <- mapM group_key c ;;
  Ok (map py_of_option (unique option_scalar_eqb keys)).

(** [series.isin(values)] *)
Definition isin (values : list scalar) (v : pyval) : bool :=
  existsb (fun s => cell_eq s v) values.

(** [round(x, 2)] on exact numbers: to the nearest hundredth, a tie to the
    even one. *)
Definition round_half_even (q : Q) : Z :=
  let f := Qfloor q in
  match Qcompare (q - inject_Z f) (1 # 2) with
  | Lt => f
  | Gt => f + 1
  | Eq => if Z.even f then f else f + 1
  end.

Definition round2 (q : Q) : Q := round_half_even (q * 100) # 100.

Definition py_round2 (v : pyval) : result pyval :=
  match v with
  | PNone => Ok PNone
  | PNum q => Ok (PNum (round2 q))
  | PBool b => Ok (PNum (bool_num b))
  | _ => Raise (TypeError "type doesn't define __round__ method")
  end.

(** The values [sorted] can compare: numbers with numbers, strings with
    strings, timestamps with timestamps.  (Lists never reach [sorted] here:
    [unique] has refused them.) *)
Definition kind (v : pyval) : option nat :=
  match v with
  | PBool _ | PNum _ => Some 0%nat
  | PStr _ => Some 1%nat
  | PTime _ => Some 2%nat
  | PNone | PList _ | PDict _ => None
  end.

Definition comparable (a b : pyval) : bool :=
  match kind a, kind b with
  | Some i, Some j => Nat.eqb i j
  | _, _ => false
  end.

Definition py_leb (a b : pyval) : bool :=
  match scalar_of_py a, scalar_of_py b with
  | Some x, Some y => scalar_leb x y
  | _, _ => false
  end.

(** [sorted(l)]: no comparison is made on fewer than two elements. *)
Definition py_sorted (l : list pyval) : result (list pyval) :=
  match l with
  | [] | [_] => Ok l
  | x :: t =>
      if forallb (comparable x) t then Ok (sort py_leb l)
      else Raise (TypeError "'<' not supported between instances")
  end.

End Pandas.

Export Pandas.

(** ** The manager *)

(** [self]: the two paths, the decoded files and the table of claims. *)
Record store : Type := mkStore
  { geojson_file : string;
    analytics_file : string;
    claims_data : pyval;
    analytics_data : pyval;
    df : option DataFrame }.

(** A method: the result (or the exception) and the store afterwards. *)
Definition M (A : Type) : Type := store -> result A * store.

(** A method that only reads [self]. *)
Definition reads {A : Type} (f : store -> result A) : M A :=
  fun self => (f self, self).

(** What the program prints. *)
Inductive log_entry : Type :=
| Loaded (n : nat)
| ErrorLoadingData (e : exn).

(** The outcome of [open(path)] followed by [json.load]. *)
Definition filesystem : Type := string -> result pyval.

Definition empty_collection : pyval :=
  PDict [(PStr "type", PStr "FeatureCollection"); (PStr "features", PList [])].

(** The keys of a decoded JSON object are strings. *)
Fixpoint row_of_dict (kv : list (pyval * pyval)) : row :=
  match kv with
  | [] => []
  | (PStr k, v) :: t => (k, v) :: row_of_dict t
  | _ :: t => row_of_dict t
  end.

(** The body of the loop of [load_data]. *)
Definition feature_record (feature : pyval) : result row :=
  p <- getitem feature "properties" ;;
  match p with
  | PDict props =>
      g <- getitem feature "geometry" ;;
      Ok (row_of_dict (dict_set "geometry" g props))
  | PList _ =>
      _ <- getitem feature "geometry" ;;
      Raise (TypeError "list indices must be integers or slices, not str")
  | _ => Raise (AttributeError "object has no attribute 'copy'")
  end.

(** Lines 43 to 47: the records of the features of the collection. *)
Definition features_of (claims : pyval) : result (list row) :=
  fl <- getitem claims "features" ;;
  items <- iter fl ;;
  mapM feature_record items.

(** The [try] block of [load_data]. *)
Definition load_try (fs : filesystem) (self : store) : result store :=
  claims <- fs (geojson_file self) ;;
  analytics <- fs (analytics_file self) ;;
  features <- features_of claims ;;
  Ok (mkStore (geojson_file self) (analytics_file self) claims analytics
              (Some (DataFrame_of features))).

(** What the [except] branch leaves. *)
Definition fallback (self : store) : store :=
  mkStore (geojson_file self) (analytics_file self)
          empty_collection (PDict []) (Some (DataFrame_of [])).

Definition load_data (fs : filesystem) (self : store) : store * list log_entry :=
  match load_try fs self with
  | Ok self' =>
      (self', [Loaded (match df self' with Some d => len d | None => 0%nat end)])
  | Raise e => (fallback self, [ErrorLoadingData e])
  end.

(** [FRAWebGISManager(geojson_file, analytics_file)] *)
Definition init (fs : filesystem) (geojson analytics : string)
  : store * list log_entry :=
  load_data fs (mkStore geojson analytics PNone PNone None).

(** [self.df is None or len(self.df) == 0] *)
Definition no_data (self : store) : bool :=
  match df self with
  | None => true
  | Some d => Nat.eqb (len d) 0
  end.

Definition frame (self : store) : DataFrame :=
  match df self with
  | Some d => d
  | None => empty_frame
  end.

(** ** Filtering *)

(** [filters]: a dict from key to [None] or a scalar. *)
Definition criteria : Type := list (string * option scalar).

(** ['k' in filters and filters['k']] *)
Definition active (filters : criteria) (k : string) : option scalar :=
  match lookup k filters with
  | Some v => if truthy v then v else None
  | None => None
  end.

(** [if k in filters and filters[k]: fd = fd[fd[k] == filters[k]]] *)
Definition where_eq (k : string) (filters : criteria) (fd : DataFrame)
  : result DataFrame :=
  match active filters k with
  | Some v => c <- col fd k ;; Ok (mask fd (map (cell_eq v) c))
  | None => Ok fd
  end.

Section Filtering.

Variable float_of_string : string -> option pyfloat.

Definition where_min (filters : criteria) (fd : DataFrame) : result DataFrame :=
  match active filters "claim_area_min" with
  | Some v =>
      min_area <- py_float float_of_string v ;;
      c <- col fd "claim_area_ha" ;;
      m <- mapM (cell_ge min_area) c ;;
      Ok (mask fd m)
  | None => Ok fd
  end.

Definition where_max (filters : criteria) (fd : DataFrame) : result DataFrame :=
  match active filters "claim_area_max" with
  | Some v =>
      max_area <- py_float float_of_string v ;;
      c <- col fd "claim_area_ha" ;;
      m <- mapM (cell_le max_area) c ;;
      Ok (mask fd m)
  | None => Ok fd
  end.

(** Lines 65 to 91. *)
Definition apply_filters (filters : option criteria) (fd : DataFrame)
  : result DataFrame :=
  match filters with
  | None | Some [] => Ok fd
  | Some f =>
      fd <- where_eq "state" f fd ;;
      fd <- where_eq "district" f fd ;;
      fd <- where_eq "village" f fd ;;
      fd <- where_eq "fra_type" f fd ;;
      fd <- where_eq "status" f fd ;;
      fd <- where_eq "tribal_community" f fd ;;
      fd <- where_min f fd ;;
      where_max f fd
  end.

(** Lines 100 to 112 on a cell that is not a list: a missing value becomes
    [None], a numpy number the Python number, anything else is kept.  (A
    list is answered elementwise by [pd.isna]; when the truth of that
    answer is ambiguous the [except] branch of line 110 replaces the list
    by its text.  The text of a list is not modelled: see
    [no_list_property].) *)
Definition clean_value (v : pyval) : pyval :=
  match v with
  | PNone => PNone
  | PNum q => PNum q
  | _ => v
  end.

Definition properties_of (d : DataFrame) (r : row) : list (pyval * pyval) :=
  map (fun k => (PStr k, clean_value (cell k r)))
      (filter (fun k => negb (String.eqb k "geometry")) (columns d)).

(** [row['geometry']] *)
Definition row_getitem (d : DataFrame) (r : row) (k : string) : result pyval :=
  if has_column d k then Ok (cell k r) else Raise (KeyError k).

Definition feature_of (d : DataFrame) (r : row) : result pyval :=
  g <- row_getitem d r "geometry" ;;
  Ok (PDict [(PStr "type", PStr "Feature");
             (PStr "properties", PDict (properties_of d r));
             (PStr "geometry", g)]).

(** [filters or {}] *)
Definition filters_or_empty (filters : option criteria) : pyval :=
  match filters with
  | None => PDict []
  | Some f => PDict (map (fun kv => (PStr (fst kv), py_of_option (snd kv))) f)
  end.

Definition collection (features : list pyval) (filters : option criteria) : pyval :=
  PDict [(PStr "type", PStr "FeatureCollection");
         (PStr "features", PList features);
         (PStr "properties",
          PDict [(PStr "total_claims", py_int (List.length features));
                 (PStr "filters_applied", filters_or_empty filters)])].

Definition get_filtered_claims (filters : option criteria) : M pyval :=
  reads (fun self =>
    if no_data self then Ok empty_collection
    else
      let filtered_df := frame self in
      filtered_df <- apply_filters filters filtered_df ;;
      features <- mapM (feature_of filtered_df) (rows filtered_df) ;;
      Ok (collection features filters)).

End Filtering.

(** ** Lookup, rollups and metrics *)

(** [get_claim_details]: the first row whose [claim_id] is the given one,
    as a dict of all its columns, or [None]. *)
Definition get_claim_details (claim_id : scalar) : M pyval :=
  reads (fun self =>
    if no_data self then Ok PNone
    else
      c <- col (frame self) "claim_id" ;;
      let claim := mask (frame self) (map (cell_eq claim_id) c) in
      Ok match rows claim with
         | [] => PNone
         | r :: _ => PDict (map (fun k => (PStr k, cell k r)) (columns claim))
         end).

(** The dict given to [agg] in both rollups; [rename] changes the names of
    [claim_id] and [status] only. *)
Definition rollup_aggs : list aggregation :=
  [ mkAgg "claim_id" series_count "total_claims";
    mkAgg "claim_area_ha" series_sum "claim_area_ha";
    mkAgg "status" (count_eq (SStr "approved")) "approved_claims";
    mkAgg "fra_type" value_counts "fra_type" ].

Definition get_state_wise_summary : M pyval :=
  reads (fun self =>
    if no_data self then Ok (PDict [])
    else groupby_agg (frame self) "state" rollup_aggs).

Definition get_tribal_community_analysis : M pyval :=
  reads (fun self =>
    if no_data self then Ok (PDict [])
    else groupby_agg (frame self) "tribal_community" rollup_aggs).

Definition pending_statuses : list scalar :=
  [SStr "submitted"; SStr "under_review"; SStr "field_verification"].

(** [round(count / total * 100, 2)] *)
Definition percentage (count total : nat) : pyval :=
  PNum (round2 (inject_Z (Z.of_nat count) / inject_Z (Z.of_nat total) * 100)).

(** [round(len(d[d[flag]]) / total * 100, 2) if total > 0 else 0] *)
Definition flag_rate (d : DataFrame) (flag : string) (total : nat) : result pyval :=
  if Nat.ltb 0 total then
    c <- col d flag ;;
    m <- bool_mask c ;;
    Ok (percentage (len (mask d m)) total)
  else Ok (PNum 0).

Definition get_performance_metrics : M pyval :=
  reads (fun self =>
    if no_data self then Ok (PDict [])
    else
      let d := frame self in
      let total_claims := len d in
      status <- col d "status" ;;
      let approved_claims :=
        len (mask d (map (cell_eq (SStr "approved")) status)) in
      let pending_claims := len (mask d (map (isin pending_statuses) status)) in
      let rejected_claims :=
        len (mask d (map (cell_eq (SStr "rejected")) status)) in
      let approval_rate :=
        if Nat.ltb 0 total_claims then percentage approved_claims total_claims
        else PNum 0 in
      let pending_rate :=
        if Nat.ltb 0 total_claims then percentage pending_claims total_claims
        else PNum 0 in
      area <- col d "claim_area_ha" ;;
      total <- series_sum area ;;
      total_area_ha <- py_round2 total ;;
      mean <- series_mean area ;;
      average_claim_size_ha <- py_round2 mean ;;
      field_verification_rate <- flag_rate d "field_verification_done" total_claims ;;
      gps_verification_rate <- flag_rate d "gps_coordinates_verified" total_claims ;;
      Ok (PDict [(PStr "total_claims", py_int total_claims);
                 (PStr "approved_claims", py_int approved_claims);
                 (PStr "pending_claims", py_int pending_claims);
                 (PStr "rejected_claims", py_int rejected_claims);
                 (PStr "approval_rate", approval_rate);
                 (PStr "pending_rate", pending_rate);
                 (PStr "total_area_ha", total_area_ha);
                 (PStr "average_claim_size_ha", average_claim_size_ha);
                 (PStr "field_verification_rate", field_verification_rate);
                 (PStr "gps_verification_rate", gps_verification_rate)])).

(** ** Timeline *)

Definition ret {A : Type} (a : A) : M A := fun self => (Ok a, self).

Definition lift {A : Type} (r : result A) : M A := fun self => (r, self).

Definition bindM {A B : Type} (m : M A) (k : A -> M B) : M B :=
  fun self =>
    match m self with
    | (Ok a, self') => k a self'
    | (Raise e, self') => (Raise e, self')
    end.

(** [self.df] *)
Definition get_df : M DataFrame := fun self => (Ok (frame self), self).

(** [self.df[c] = values] *)
Definition assign_column (c : string) (values : list pyval) : M unit :=
  fun self =>
    (Ok tt,
     mkStore (geojson_file self) (analytics_file self) (claims_data self)
             (analytics_data self) (Some (set_column (frame self) c values))).

Declare Scope method_scope.
Delimit Scope method_scope with method.
Notation "x <~ m ;; k" := (bindM m (fun x => k))
  (at level 61, m at next level, right associativity) : method_scope.

Definition yearly_aggs : list aggregation :=
  [ mkAgg "claim_id" series_count "claims_submitted";
    mkAgg "claim_area_ha" series_sum "claim_area_ha";
    mkAgg "status" (count_eq (SStr "approved")) "claims_approved" ].

Definition monthly_aggs : list aggregation :=
  [ mkAgg "claim_id" series_count "claims_submitted";
    mkAgg "claim_area_ha" series_sum "claim_area_ha" ].

Section Timeline.

(** [pd.to_datetime] on one value that is neither missing nor a timestamp:
    a timestamp, NaT ([None]), or an exception. *)
Variable to_datetime_scalar : scalar -> result (option Timestamp).

Definition to_datetime (v : pyval) : result pyval :=
  match v with
  | PNone => Ok PNone
  | PTime t => Ok (PTime t)
  | PBool b => t <- to_datetime_scalar (SBool b) ;; Ok (py_of_option (option_map STime t))
  | PNum q => t <- to_datetime_scalar (SNum q) ;; Ok (py_of_option (option_map STime t))
  | PStr s => t <- to_datetime_scalar (SStr s) ;; Ok (py_of_option (option_map STime t))
  | PList _ | PDict _ => Raise (TypeError "value is not convertible to datetime")
  end.

(** [current_year] is [datetime.now().year]. *)
Definition get_timeline_analysis (current_year : Z) : M pyval :=
  fun self =>
    if no_data self then (Ok (PDict []), self)
    else
      (d <~ get_df ;;
       c <~ lift (col d "submission_date") ;;
       dates <~ lift (mapM to_datetime c) ;;
       _ <~ assign_column "submission_date" dates ;;
       d <~ get_df ;;
       c <~ lift (col d "submission_date") ;;
       years <~ lift (mapM (dt_field ts_year) c) ;;
       _ <~ assign_column "submission_year" years ;;
       d <~ get_df ;;
       c <~ lift (col d "submission_date") ;;
       months <~ lift (mapM (dt_field ts_month) c) ;;
       _ <~ assign_column "submission_month" months ;;
       d <~ get_df ;;
       yearly <~ lift (groupby_agg d "submission_year" yearly_aggs) ;;
       y <~ lift (col d "submission_year") ;;
       let this_year := mask d (map (cell_eq (SNum (inject_Z current_year))) y) in
       monthly <~ lift (groupby_agg this_year "submission_month" monthly_aggs) ;;
       ret (PDict [(PStr "yearly", yearly); (PStr "monthly", monthly)]))%method
      self.

End Timeline.

(** ** Request handlers *)

(** [request.args]: the query parameters, in order. *)
Definition request_args : Type := list (string * string).

(** A response: the body given to [jsonify] and the status code. *)
Definition response : Type := (pyval * Z)%type.

(** A handler reads the global [fra_manager] and answers. *)
Definition handler : Type := store -> response * store.

Definition filter_keys : list string :=
  ["state"; "district"; "village"; "fra_type"; "status"; "tribal_community";
   "claim_area_min"; "claim_area_max"].

(** Lines 267 to 279: the eight arguments, those that are empty removed. *)
Definition filters_of_args (args : request_args) : criteria :=
  filter (fun kv => truthy (snd kv))
         (map (fun k => (k, option_map SStr (lookup k args))) filter_keys).

Definition error_body (prefix : string) (e : exn) : list (pyval * pyval) :=
  [(PStr "error", PStr (String.append prefix (str_exn e)))].

Section Handlers.

Variable float_of_string : string -> option pyfloat.

Definition get_claims (args : request_args) : handler :=
  fun fra_manager =>
    match get_filtered_claims float_of_string (Some (filters_of_args args)) fra_manager with
    | (Ok data, m) => ((data, 200), m)
    | (Raise e, m) =>
        ((PDict (error_body "Error loading claims: " e ++ [(PStr "features", PList [])]),
          500), m)
    end.

End Handlers.

(** [sorted(fra_manager.df[c].unique().tolist())] *)
Definition sorted_unique (d : DataFrame) (c : string) : result pyval :=
  values <- col d c ;;
  u <- series_unique values ;;
  l <- py_sorted u ;;
  Ok (PList l).

Definition get_filter_options : handler :=
  fun fra_manager =>
    if no_data fra_manager then ((PDict [], 200), fra_manager)
    else
      let d := frame fra_manager in
      match
        states <- sorted_unique d "state" ;;
        districts <- sorted_unique d "district" ;;
        villages <- sorted_unique d "village" ;;
        fra_types <- sorted_unique d "fra_type" ;;
        statuses <- sorted_unique d "status" ;;
        tribal_communities <- sorted_unique d "tribal_community" ;;
        Ok (PDict [(PStr "states", states);
                   (PStr "districts", districts);
                   (PStr "villages", villages);
                   (PStr "fra_types", fra_types);
                   (PStr "statuses", statuses);
                   (PStr "tribal_communities", tribal_communities)])
      with
      | Ok options => ((options, 200), fra_manager)
      | Raise e => ((PDict (error_body "" e), 500), fra_manager)
      end.

(** ** Concrete readers of literals

    [float()] and [pd.to_datetime] accept more spellings than these two
    readers; the definitions above take the reader as a parameter, and the
    closed examples below use these. *)

Definition digit (a : ascii) : option Z :=
  let n := Z.of_N (N_of_ascii a) in
  if (48 <=? n) && (n <=? 57) then Some (n - 48) else None.

(** The digits of [s] read after [acc]: the number and how many were read. *)
Fixpoint digits (s : string) (acc : Z) (n : nat) : option (Z * nat) :=
  match s with
  | EmptyString => Some (acc, n)
  | String a t =>
      match digit a with
      | Some d => digits t (10 * acc + d) (S n)
      | None => None
      end
  end.

Fixpoint split_at (sep : ascii) (s : string) : string * option string :=
  match s with
  | EmptyString => (EmptyString, None)
  | String a t =>
      if Ascii.eqb a sep then (EmptyString, Some t)
      else let (l, r) := split_at sep t in (String a l, r)
  end.

(** An unsigned decimal: digits, or digits with one point. *)
Definition unsigned_decimal (s : string) : option Q :=
  let (i, f) := split_at "." s in
  match digits i 0 0, f with
  | Some (n, k), None => if Nat.eqb k 0 then None else Some (inject_Z n)
  | Some (n, k), Some frac =>
      match digits frac n 0 with
      | Some (m, j) =>
          if Nat.eqb (k + j) 0 then None
          else Some (m # Z.to_pos (10 ^ Z.of_nat j))
      | None => None
      end
  | None, _ => None
  end.

(** The decimal literals of [float()], with an optional sign. *)
Definition decimal_float (s : string) : option pyfloat :=
  match s with
  | String "-" t => option_map (fun q => Fin (- q)) (unsigned_decimal t)
  | String "+" t => option_map Fin (unsigned_decimal t)
  | _ => option_map Fin (unsigned_decimal s)
  end.

Definition leap_year (y : Z) : bool :=
  ((y mod 4 =? 0) && negb (y mod 100 =? 0)) || (y mod 400 =? 0).

Definition days_in_month (y m : Z) : Z :=
  if m =? 2 then (if leap_year y then 29 else 28)
  else if (m =? 4) || (m =? 6) || (m =? 9) || (m =? 11) then 30
  else 31.

(** A calendar date written [YYYY-MM-DD]. *)
Definition iso_date (s : string) : option Timestamp :=
  let (ys, r) := split_at "-" s in
  match r with
  | Some r =>
      let (ms, ds) := split_at "-" r in
      match digits ys 0 0, digits ms 0 0, ds with
      | Some (y, 4%nat), Some (m, 2%nat), Some ds =>
          match digits ds 0 0 with
          | Some (d, 2%nat) =>
              if (1 <=? m) && (m <=? 12) && (1 <=? d) && (d <=? days_in_month y m)
              then Some (mkTimestamp y m d)
              else None
          | _ => None
          end
      | _, _, _ => None
      end
  | None => None
  end.

(** [pd.to_datetime] on the string cells of the examples: the empty string
    is NaT, an ISO date a timestamp, any other string an error.  Cells of
    other kinds are outside this reader. *)
Definition iso_datetime (v : scalar) : result (option Timestamp) :=
  match v with
  | SStr s =>
      if String.eqb s "" then Ok None
      else
        match iso_date s with
        | Some t => Ok (Some t)
        | None =>
            Raise (ValueError (String.append "Unknown datetime string format, unable to parse: " s))
        end
  | STime t => Ok (Some t)
  | SBool _ | SNum _ => Raise (TypeError "value is not convertible to datetime")
  end.

(** ** What a criteria mapping asks of a record *)

Definition string_keys : list string :=
  ["state"; "district"; "village"; "fra_type"; "status"; "tribal_community"].

Definition criteria_of (filters : option criteria) : criteria :=
  match filters with
  | Some f => f
  | None => []
  end.

(** The test a string key puts on a record: none unless the key is active. *)
Definition key_holds (f : criteria) (k : string) (r : row) : bool :=
  match active f k with
  | Some v => cell_eq v (cell k r)
  | None => true
  end.

(** The bound a key asks for, if the key is active. *)
Definition bound (float_of_string : string -> option pyfloat) (f : criteria)
  (k : string) : result (option pyfloat) :=
  match active f k with
  | Some v => b <- py_float float_of_string v ;; Ok (Some b)
  | None => Ok None
  end.

(** [bound <= area], false on a missing area. *)
Definition area_ge (b : pyfloat) (c : pyval) : bool :=
  match number c with
  | Some q => float_le b (Fin q)
  | None => false
  end.

(** [area <= bound], false on a missing area. *)
Definition area_le (b : pyfloat) (c : pyval) : bool :=
  match number c with
  | Some q => float_le (Fin q) b
  | None => false
  end.

Definition min_holds (float_of_string : string -> option pyfloat) (f : criteria)
  (r : row) : bool :=
  match bound float_of_string f "claim_area_min" with
  | Ok (Some b) => area_ge b (cell "claim_area_ha" r)
  | _ => true
  end.

Definition max_holds (float_of_string : string -> option pyfloat) (f : criteria)
  (r : row) : bool :=
  match bound float_of_string f "claim_area_max" with
  | Ok (Some b) => area_le b (cell "claim_area_ha" r)
  | _ => true
  end.

(** The record satisfies every active criterion. *)
Definition satisfies (float_of_string : string -> option pyfloat) (f : criteria)
  (r : row) : bool :=
  forallb (fun k => key_holds f k r) string_keys
  && min_holds float_of_string f r
  && max_holds float_of_string f r.

(** The area of the record is a number or is missing. *)
Definition area_ok (r : row) : bool :=
  match cell "claim_area_ha" r with
  | PNone | PNum _ | PBool _ => true
  | _ => false
  end.

Definition is_ok {A : Type} (r : result A) : bool :=
  match r with
  | Ok _ => true
  | Raise _ => false
  end.

Definition bound_active (f : criteria) : bool :=
  match active f "claim_area_min", active f "claim_area_max" with
  | None, None => false
  | _, _ => true
  end.

(** The criteria can be evaluated on the table: the column of every active
    string key exists, an active bound is a number for [float()], the areas
    are there and can be compared when a bound is active, and the table has
    its geometry column. *)
Definition filterable (float_of_string : string -> option pyfloat)
  (d : DataFrame) (f : criteria) : bool :=
  forallb (fun k => match active f k with
                    | Some _ => has_column d k
                    | None => true
                    end) string_keys
  && is_ok (bound float_of_string f "claim_area_min")
  && is_ok (bound float_of_string f "claim_area_max")
  && (if bound_active f
      then has_column d "claim_area_ha" && forallb area_ok (rows d)
      else true)
  && has_column d "geometry".

(** The feature of a record, when the geometry column exists. *)
Definition feature (d : DataFrame) (r : row) : pyval :=
  PDict [(PStr "type", PStr "Feature");
         (PStr "properties", PDict (properties_of d r));
         (PStr "geometry", cell "geometry" r)].

(** The claim's reading of an active key: present, not null and not the
    empty string. *)
Definition stated_active (f : criteria) (k : string) : option scalar :=
  match lookup k f with
  | Some (Some (SStr s)) => if String.eqb s "" then None else Some (SStr s)
  | Some (Some v) => Some v
  | _ => None
  end.

(** A store holding the table of the given records. *)
Definition store_of (records : list row) : store :=
  mkStore "output/fra_claims.geojson" "output/fra_analytics.json"
          PNone (PDict []) (Some (DataFrame_of records)).

(** ** Sample data *)

Definition point (x y : Q) : pyval :=
  PDict [(PStr "type", PStr "Point"); (PStr "coordinates", PList [PNum x; PNum y])].

(** A claim with all its attributes; [area] and [date] may be missing. *)
Definition claim (id state status : string) (area date : pyval) : row :=
  [("claim_id", PStr id); ("state", PStr state); ("district", PStr "D1");
   ("village", PStr "V1"); ("fra_type", PStr "IFR"); ("status", PStr status);
   ("tribal_community", PStr "Gond"); ("claim_area_ha", area);
   ("submission_date", date); ("field_verification_done", PBool true);
   ("gps_coordinates_verified", PBool false); ("geometry", point 1 2)].

Definition claim_A : row := claim "A" "X" "approved" (PNum 2) (PStr "2024-01-15").
Definition claim_B : row := claim "B" "X" "submitted" (PNum 3) (PStr "2023-06-30").
Definition claim_C : row := claim "C" "Y" "approved" PNone PNone.

Definition sample : list row := [claim_A; claim_B; claim_C].

Definition sample_frame : DataFrame := DataFrame_of sample.

Definition sample_store : store := store_of sample.

Definition sample_filters : option criteria :=
  Some [("state", Some (SStr "X")); ("village", Some (SStr ""));
        ("claim_area_min", Some (SStr "2.5")); ("page", Some (SStr "3"))].

(** A bound that is the number zero. *)
Definition zero_max : criteria := [("claim_area_max", Some (SNum 0))].



(** ** Sample files *)

Definition feature_json (r : row) (geometry : pyval) : pyval :=
  PDict [(PStr "type", PStr "Feature");
         (PStr "properties", PDict (map (fun kv => (PStr (fst kv), snd kv)) r));
         (PStr "geometry", geometry)].

Definition sample_geojson : pyval :=
  PDict [(PStr "type", PStr "FeatureCollection");
         (PStr "features",
          PList [feature_json [("claim_id", PStr "A"); ("state", PStr "X")] (point 1 2);
                 feature_json [("claim_id", PStr "B"); ("claim_area_ha", PNum 3)] (point 3 4)])].

Definition sample_analytics : pyval := PDict [(PStr "total", PNum 2)].

(** Both files are there. *)
Definition good_files : filesystem :=
  fun path =>
    if String.eqb path "output/fra_claims.geojson" then Ok sample_geojson
    else if String.eqb path "output/fra_analytics.json" then Ok sample_analytics
    else Raise (OSError "No such file or directory").

(** The statistics file is not valid JSON. *)
Definition bad_analytics : filesystem :=
  fun path =>
    if String.eqb path "output/fra_claims.geojson" then Ok sample_geojson
    else Raise (ValueError "Expecting value: line 1 column 1 (char 0)").

(** [res['features'][0]['properties'][k]] *)
Definition first_feature_property (res : pyval) (k : string) : result pyval :=
  fl <- getitem res "features" ;;
  match fl with
  | PList (f :: _) => p <- getitem f "properties" ;; getitem p k
  | _ => Raise (TypeError "list index out of range")
  end.

(** ** The distinct values of a string field *)

Definition string_of (v : pyval) : option string :=
  match v with
  | PStr s => Some s
  | _ => None
  end.

Definition is_string (v : pyval) : bool :=
  match v with
  | PStr _ => true
  | _ => false
  end.

(** The strings the field holds, record after record. *)
Definition field_values (d : DataFrame) (k : string) : list string :=
  present (map (fun r => string_of (cell k r)) (rows d)).

(** The column exists and every record has a string there. *)
Definition strings_only (d : DataFrame) (k : string) : bool :=
  has_column d k && forallb (fun r => is_string (cell k r)) (rows d).

(** The values without repetition, in increasing order. *)
Definition distinct_sorted (l : list string) : list string :=
  sort String.leb (unique String.eqb l).

Definition string_le (a b : string) : Prop := String.leb a b = true.

(** The answer of [get_filter_options] on string fields. *)
Definition options_of (d : DataFrame) : pyval :=
  PDict [(PStr "states", PList (map PStr (distinct_sorted (field_values d "state"))));
         (PStr "districts", PList (map PStr (distinct_sorted (field_values d "district"))));
         (PStr "villages", PList (map PStr (distinct_sorted (field_values d "village"))));
         (PStr "fra_types", PList (map PStr (distinct_sorted (field_values d "fra_type"))));
         (PStr "statuses", PList (map PStr (distinct_sorted (field_values d "status"))));
         (PStr "tribal_communities",
          PList (map PStr (distinct_sorted (field_values d "tribal_community"))))].

(** ** Areas and aggregates *)

(** The cell is a number or is missing. *)
Definition numeric_or_missing (v : pyval) : bool :=
  match v with
  | PNone | PNum _ | PBool _ => true
  | _ => false
  end.

(** The numbers among the cells: the missing cells are left out. *)
Definition numbers (c : list pyval) : list Q := present (map number c).


(** The mean of the numbers, NaN when there is none. *)
Definition mean_of (qs : list Q) : pyval :=
  match qs with
  | [] => PNone
  | _ => PNum (qsum qs / inject_Z (Z.of_nat (List.length qs)))
  end.

Definition is_flag (v : pyval) : bool :=
  match v with
  | PBool _ => true
  | _ => false
  end.

Definition flag_column (d : DataFrame) (k : string) : bool :=
  has_column d k && forallb (fun r => is_flag (cell k r)) (rows d).

(** The table has what the metrics read: the status, areas that are
    numbers or missing, and the two verification flags as booleans. *)
Definition metrics_ready (d : DataFrame) : bool :=
  has_column d "status"
  && has_column d "claim_area_ha"
  && forallb area_ok (rows d)
  && flag_column d "field_verification_done"
  && flag_column d "gps_coordinates_verified".



(** ** Groups *)




(** The value of a computation that returns. *)
Definition unwrap (r : result pyval) : pyval :=
  match r with
  | Ok v => v
  | Raise _ => PNone
  end.










(** ** The timeline, record by record *)

(** The year or the month of a converted date, missing for NaT. *)
Definition field_value (f : Timestamp -> Z) (v : pyval) : pyval :=
  match v with
  | PTime t => PNum (inject_Z (f t))
  | _ => PNone
  end.

(** The columns after [d[c] = ...]. *)
Definition with_column (cols : list string) (c : string) : list string :=
  if existsb (String.eqb c) cols then cols else cols ++ [c].

(** What lines 201 to 203 make of one record: its date converted, its year
    and its month added. *)
Definition dated (to_datetime_scalar : scalar -> result (option Timestamp))
  (r : row) : row :=
  let r1 := row_set "submission_date"
                    (unwrap (to_datetime to_datetime_scalar (cell "submission_date" r))) r in
  let r2 := row_set "submission_year"
                    (field_value ts_year (cell "submission_date" r1)) r1 in
  row_set "submission_month" (field_value ts_month (cell "submission_date" r2)) r2.

(** The columns after lines 201 to 203. *)
Definition timeline_columns (cols : list string) : list string :=
  with_column (with_column (with_column cols "submission_date") "submission_year")
              "submission_month".

(** Lines 206 to 225, on the table lines 201 to 203 have made. *)
Definition rollups (current_year : Z) (d : DataFrame) : result pyval :=
  yearly <- groupby_agg d "submission_year" yearly_aggs ;;
  y <- col d "submission_year" ;;
  let this_year := mask d (map (cell_eq (SNum (inject_Z current_year))) y) in
  monthly <- groupby_agg this_year "submission_month" monthly_aggs ;;
  Ok (PDict [(PStr "yearly", yearly); (PStr "monthly", monthly)]).

(** The store with another table. *)
Definition with_table (self : store) (d : DataFrame) : store :=
  mkStore (geojson_file self) (analytics_file self) (claims_data self)
          (analytics_data self) (Some d).



(** ** The statistics blob *)

(** A key [json.dumps] accepts: a string, a number, a boolean or [None]. *)
Definition json_key (k : pyval) : bool :=
  match k with
  | PNone | PBool _ | PNum _ | PStr _ => true
  | PTime _ | PList _ | PDict _ => false
  end.

(** [json.dumps(v)] returns: no timestamp in [v], and only keys it
    accepts. *)
Fixpoint serializable (v : pyval) : bool :=
  match v with
  | PNone | PBool _ | PNum _ | PStr _ => true
  | PTime _ => false
  | PList l => forallb serializable l
  | PDict kv => forallb (fun p => json_key (fst p) && serializable (snd p)) kv
  end.

(** A value [json.load] can give: the keys of an object are strings. *)
Fixpoint is_json (v : pyval) : bool :=
  match v with
  | PNone | PBool _ | PNum _ | PStr _ => true
  | PTime _ => false
  | PList l => forallb is_json l
  | PDict kv =>
      forallb (fun p => match fst p with PStr _ => is_json (snd p) | _ => false end) kv
  end.

(** [self.df[c].value_counts().to_dict() if self.df is not None and
    len(self.df) > 0 else {}] *)
Definition counts_or_empty (self : store) (c : string) : result pyval :=
  if no_data self then Ok (PDict [])
  else
    values <- col (frame self) c ;;
    value_counts values.

(** The summary [get_analytics] computes when the blob cannot be
    serialized. *)
Definition simplified_analytics (self : store) : result pyval :=
  let total := match df self with Some d => len d | None => 0%nat end in
  by_type <- counts_or_empty self "fra_type" ;;
  by_status <- counts_or_empty self "status" ;;
  by_state <- counts_or_empty self "state" ;;
  Ok (PDict [(PStr "summary",
              PDict [(PStr "total_claims", py_int total);
                     (PStr "claims_by_type", by_type);
                     (PStr "claims_by_status", by_status);
                     (PStr "claims_by_state", by_state)]);
             (PStr "error", PStr "Analytics data simplified due to serialization issues")]).

(** [get_analytics]: the result, and whether the message of line 138 was
    printed. *)
Definition get_analytics (self : store) : result pyval * bool * store :=
  if serializable (analytics_data self) then (Ok (analytics_data self), false, self)
  else (simplified_analytics self, true, self).

(** ** The other routes *)

(** [len(v)] *)
Definition py_len (v : pyval) : result nat :=
  match v with
  | PList l => Ok (List.length l)
  | PDict kv => Ok (List.length kv)
  | PStr s => Ok (String.length s)
  | PNone | PBool _ | PNum _ | PTime _ => Raise (TypeError "object has no len()")
  end.

(** [v[k] = x] for a string key [k]. *)
Definition setitem (v : pyval) (k : string) (x : pyval) : result pyval :=
  match v with
  | PDict kv => Ok (PDict (dict_set k x kv))
  | _ => Raise (TypeError "object does not support item assignment")
  end.

Module Routes.

(** [try: return jsonify(m()) except Exception as e: return
    jsonify({'error': str(e)}), 500].  The body is the value given to
    [jsonify], which is taken to encode it: the values of a table read
    from JSON can be encoded; NaT, which the timeline leaves for a missing
    date and which the embedding does not tell from [None], cannot. *)
Definition answer (m : M pyval) : handler :=
  fun fra_manager =>
    match m fra_manager with
    | (Ok v, s) => ((v, 200), s)
    | (Raise e, s) => ((PDict (error_body "" e), 500), s)
    end.

(** [/api/analytics] *)
Definition get_analytics : handler :=
  answer (fun fra_manager =>
            (fst (fst (get_analytics fra_manager)), snd (get_analytics fra_manager))).

(** [/api/claim/<claim_id>]: the identifier is the string of the path. *)
Definition get_claim_details (claim_id : string) : handler :=
  fun fra_manager =>
    match get_claim_details (SStr claim_id) fra_manager with
    | (Ok PNone, s) => ((PDict [(PStr "error", PStr "Claim not found")], 404), s)
    | (Ok claim_details, s) => ((claim_details, 200), s)
    | (Raise e, s) => ((PDict (error_body "" e), 500), s)
    end.

(** [/api/state-summary] *)
Definition get_state_summary : handler := answer get_state_wise_summary.

(** [/api/tribal-analysis] *)
Definition get_tribal_analysis : handler := answer get_tribal_community_analysis.

(** [/api/timeline] *)
Definition get_timeline_analysis
  (to_datetime_scalar : scalar -> result (option Timestamp)) (current_year : Z)
  : handler :=
  answer (get_timeline_analysis to_datetime_scalar current_year).

(** [/api/performance] *)
Definition get_performance_metrics : handler := answer get_performance_metrics.

(** [/api/export]; [now] is [datetime.now().isoformat()]. *)
Definition export_claims (float_of_string : string -> option pyfloat) (now : string)
  (args : request_args) : handler :=
  fun fra_manager =>
    let filters := filters_of_args args in
    match get_filtered_claims float_of_string (Some filters) fra_manager with
    | (Ok data, s) =>
        match
          features <- getitem data "features" ;;
          n <- py_len features ;;
          setitem data "export_info"
                  (PDict [(PStr "exported_at", PStr now);
                          (PStr "filters_applied", filters_or_empty (Some filters));
                          (PStr "total_claims", py_int n)])
        with
        | Ok data' => ((data', 200), s)
        | Raise e => ((PDict (error_body "" e), 500), s)
        end
    | (Raise e, s) => ((PDict (error_body "" e), 500), s)
    end.

End Routes.

(** One claim with an identifier, a state and a geometry only. *)
Definition bare_claims : list row :=
  [[("claim_id", PStr "A"); ("state", PStr "X"); ("geometry", point 1 2)]].

Definition bare_store : store := store_of bare_claims.

(** ** Features as the file has them *)

(** A feature the loop of [load_data] accepts: an object with a
    [properties] object and a [geometry]. *)
Definition is_feature (f : pyval) : bool :=
  match f with
  | PDict kv =>
      match dict_get "properties" kv, dict_get "geometry" kv with
      | Some (PDict _), Some _ => true
      | _, _ => false
      end
  | _ => false
  end.


(** [f['properties'][k]] *)
Definition property (f : pyval) (k : string) : result pyval :=
  p <- getitem f "properties" ;; getitem p k.

Definition is_list (v : pyval) : bool :=
  match v with
  | PList _ => true
  | _ => false
  end.

(** ** The counts of the metrics *)

(** The flag of the record is [True]. *)
Definition flag_set (k : string) (r : row) : bool :=
  match cell k r with
  | PBool b => b
  | _ => false
  end.

Definition with_status (s : string) (r : row) : bool :=
  cell_eq (SStr s) (cell "status" r).

Definition pending (r : row) : bool := isin pending_statuses (cell "status" r).

Definition count (p : row -> bool) (rs : list row) : nat :=
  List.length (filter p rs).

(** A percentage: a number from 0 to 100. *)
Definition is_percentage (v : pyval) : Prop :=
  exists q, v = PNum q /\ (0 <= q)%Q /\ (q <= 100)%Q.

(** Two claims, the second with an identifier and a geometry only. *)
Definition partial_claims : list row :=
  [claim_A; [("claim_id", PStr "D"); ("geometry", point 1 2)]].

Definition partial_store : store := store_of partial_claims.

(** ** The tables and the criteria the properties are stated for *)

(** No cell of a record, its geometry apart, is a list. *)
Definition no_list_property (d : DataFrame) : bool :=
  forallb (fun r =>
             forallb (fun k => negb (is_list (cell k r)))
                     (filter (fun k => negb (String.eqb k "geometry")) (columns d)))
          (rows d).

(** No value of the mapping is the number zero or [False]. *)
Definition no_zero_criterion (f : criteria) : bool :=
  forallb (fun kv => match snd kv with
                     | Some (SNum q) => negb (Qeq_bool q 0)
                     | Some (SBool b) => b
                     | _ => true
                     end) f.







(** The number is one a binary float holds: [m * 2^e] with [|m| < 2^53],
    within the range of the exponent. *)
Definition binary64 (q : Q) : bool :=
  let r := Qred q in
  let n := Z.abs (Qnum r) in
  let d := Zpos (Qden r) in
  (n / Z.gcd n (2 ^ 1024) <? 2 ^ 53)
  && (n <? 2 ^ 1024)
  && (d =? 2 ^ Z.log2 d)
  && (Z.log2 d <=? 1074).

(** A value that a column of floats holds as it is: every value but an
    integer too long for a float. *)
Definition exact_number (v : pyval) : bool :=
  match v with
  | PNum q => binary64 q
  | _ => true
  end.

(** The numbers of the table are numbers a float holds. *)
Definition exact_table (d : DataFrame) : bool :=
  forallb (fun r => forallb (fun k => exact_number (cell k r)) (columns d)) (rows d).

(** The numbers of the mapping are numbers a float holds. *)
Definition exact_criteria (f : criteria) : bool :=
  forallb (fun kv => match snd kv with
                     | Some (SNum q) => binary64 q
                     | _ => true
                     end) f.

(** The features of a collection that the loop of lines 44 to 47 goes
    through: the collection is an object, its [features] can be iterated,
    and every element visited is an object with a [properties] object and
    a [geometry]. *)
Definition loadable (c : pyval) : option (list pyval) :=
  match c with
  | PDict kv =>
      match dict_get "features" kv with
      | Some fl =>
          match iter fl with
          | Ok items => if forallb is_feature items then Some items else None
          | Raise _ => None
          end
      | None => None
      end
  | _ => None
  end.

(** A collection whose [features] is an object, not a list. *)
Definition odd_geojson : pyval :=
  PDict [(PStr "type", PStr "FeatureCollection"); (PStr "features", PDict [])].

Definition odd_files : filesystem :=
  fun path =>
    if String.eqb path "output/fra_claims.geojson" then Ok odd_geojson
    else if String.eqb path "output/fra_analytics.json" then Ok sample_analytics
    else Raise (OSError "No such file or directory").

(** * Properties *)

(** ** The readers of literals *)

Example decimal_float_examples :
  decimal_float "2.5" = Some (Fin (25 # 10)) /\
  decimal_float "10" = Some (Fin 10) /\
  decimal_float "-0.75" = Some (Fin (- (75 # 100))) /\
  decimal_float "5." = Some (Fin 5) /\
  decimal_float "abc" = None /\
  decimal_float "" = None /\
  decimal_float "1.2.3" = None.
Proof. repeat split; reflexivity. Qed.

Example iso_date_examples :
  iso_date "2024-01-15" = Some (mkTimestamp 2024 1 15) /\
  iso_date "2023-02-29" = None /\
  iso_date "not a date" = None.
Proof. repeat split; reflexivity. Qed.

(** [repr] chooses the quotes as Python does and escapes what it
    escapes: [repr("abc")], [repr("a'b")], and the text of the
    [ValueError] of [float("a'b")]. *)
Example repr_examples :
  repr "abc" = "'abc'" /\
  repr "a'b" = String double_quote (String.append "a'b" (String double_quote "")) /\
  repr (String backslash "n") =
  String.append "'" (String backslash (String backslash "n'")) /\
  str_exn (KeyError "village") = "'village'" /\
  py_float decimal_float (SStr "a'b") =
  Raise (ValueError
           (String.append "could not convert string to float: "
              (String double_quote (String.append "a'b" (String double_quote ""))))).
Proof. repeat split; reflexivity. Qed.

(** ** Monadic traversals and masks *)

Lemma mapM_ok_map {A B : Type} (f : A -> result B) (g : A -> B) (l : list A) :
  (forall x, In x l -> f x = Ok (g x)) -> mapM f l = Ok (map g l).
Proof.
  induction l as [|x t IH]; intros H; simpl.
  - reflexivity.
  - rewrite (H x (or_introl eq_refl)).
    rewrite IH; [reflexivity|].
    intros y Hy. apply H. right. exact Hy.
Qed.

Lemma mapM_length {A B : Type} (f : A -> result B) (l : list A) (l' : list B) :
  mapM f l = Ok l' -> List.length l' = List.length l.
Proof.
  revert l'. induction l as [|x t IH]; intros l' H; simpl in H.
  - injection H as <-. reflexivity.
  - destruct (f x) as [y|e]; [|discriminate].
    destruct (mapM f t) as [ys|e]; [|discriminate].
    injection H as <-. simpl. f_equal. apply IH. reflexivity.
Qed.

Lemma select_by_mask {A : Type} (p : A -> bool) (l : list A) :
  map fst (filter snd (combine l (map p l))) = filter p l.
Proof.
  induction l as [|x t IH]; simpl.
  - reflexivity.
  - destruct (p x); simpl; rewrite IH; reflexivity.
Qed.

Lemma mask_column (cols : list string) (rs : list row) (c : string) (p : pyval -> bool) :
  mask (mkDataFrame cols rs) (map p (map (cell c) rs)) =
  mkDataFrame cols (filter (fun r => p (cell c r)) rs).
Proof.
  unfold mask. simpl. f_equal.
  rewrite map_map. apply (select_by_mask (fun r => p (cell c r))).
Qed.

Lemma filter_filter {A : Type} (p q : A -> bool) (l : list A) :
  filter p (filter q l) = filter (fun x => q x && p x) l.
Proof.
  induction l as [|x t IH]; simpl.
  - reflexivity.
  - destruct (q x); simpl.
    + destruct (p x); rewrite IH; reflexivity.
    + exact IH.
Qed.

Lemma forallb_filter_weaken {A : Type} (p q : A -> bool) (l : list A) :
  forallb p l = true -> forallb p (filter q l) = true.
Proof.
  intros H. apply forallb_forall. intros x Hx.
  apply filter_In in Hx. destruct Hx as [Hx _].
  revert x Hx. apply forallb_forall. exact H.
Qed.

(** ** The filter keeps the records that satisfy the criteria *)

Section FilterProofs.

Variable fos : string -> option pyfloat.

Lemma where_eq_rows (cols : list string) (rs : list row) (k : string) (f : criteria) :
  match active f k with
  | Some _ => has_column (mkDataFrame cols rs) k
  | None => true
  end = true ->
  where_eq k f (mkDataFrame cols rs) =
  Ok (mkDataFrame cols (filter (key_holds f k) rs)).
Proof.
  unfold where_eq, key_holds. destruct (active f k) as [v|]; intros H.
  - unfold col. rewrite H. simpl. rewrite mask_column. reflexivity.
  - rewrite filter_true. reflexivity.
Qed.

Lemma cell_ge_area (b : pyfloat) (r : row) :
  area_ok r = true ->
  cell_ge b (cell "claim_area_ha" r) = Ok (area_ge b (cell "claim_area_ha" r)).
Proof.
  unfold area_ok, cell_ge, area_ge.
  destruct (cell "claim_area_ha" r); intros H; try discriminate; reflexivity.
Qed.

Lemma cell_le_area (b : pyfloat) (r : row) :
  area_ok r = true ->
  cell_le b (cell "claim_area_ha" r) = Ok (area_le b (cell "claim_area_ha" r)).
Proof.
  unfold area_ok, cell_le, area_le.
  destruct (cell "claim_area_ha" r); intros H; try discriminate; reflexivity.
Qed.

Lemma compare_areas (cmp : pyfloat -> pyval -> result bool)
  (test : pyfloat -> pyval -> bool) (b : pyfloat) (cols : list string) (rs : list row) :
  (forall r, area_ok r = true ->
             cmp b (cell "claim_area_ha" r) = Ok (test b (cell "claim_area_ha" r))) ->
  has_column (mkDataFrame cols rs) "claim_area_ha" = true ->
  forallb area_ok rs = true ->
  (c <- col (mkDataFrame cols rs) "claim_area_ha" ;;
   m <- mapM (cmp b) c ;;
   Ok (mask (mkDataFrame cols rs) m)) =
  Ok (mkDataFrame cols (filter (fun r => test b (cell "claim_area_ha" r)) rs)).
Proof.
  intros Hcmp Hc Hrs. unfold col. rewrite Hc. simpl.
  rewrite (mapM_ok_map (cmp b) (test b)).
  - simpl. rewrite mask_column. reflexivity.
  - intros x Hx. apply in_map_iff in Hx. destruct Hx as [r [<- Hr]].
    apply Hcmp. revert r Hr. apply forallb_forall. exact Hrs.
Qed.

Lemma where_min_rows (cols : list string) (rs : list row) (f : criteria) :
  is_ok (bound fos f "claim_area_min") = true ->
  (bound_active f = true ->
   has_column (mkDataFrame cols rs) "claim_area_ha" = true /\
   forallb area_ok rs = true) ->
  where_min fos f (mkDataFrame cols rs) =
  Ok (mkDataFrame cols (filter (min_holds fos f) rs)).
Proof.
  unfold where_min, min_holds, bound, bound_active.
  destruct (active f "claim_area_min") as [v|]; simpl.
  - destruct (py_float fos v) as [b|e]; simpl; [|discriminate].
    intros _ H. destruct (H eq_refl) as [Hc Hrs].
    apply (compare_areas cell_ge area_ge); auto using cell_ge_area.
  - intros _ _. rewrite filter_true. reflexivity.
Qed.

Lemma where_max_rows (cols : list string) (rs : list row) (f : criteria) :
  is_ok (bound fos f "claim_area_max") = true ->
  (bound_active f = true ->
   has_column (mkDataFrame cols rs) "claim_area_ha" = true /\
   forallb area_ok rs = true) ->
  where_max fos f (mkDataFrame cols rs) =
  Ok (mkDataFrame cols (filter (max_holds fos f) rs)).
Proof.
  unfold where_max, max_holds, bound, bound_active.
  destruct (active f "claim_area_max") as [v|]; simpl.
  - destruct (py_float fos v) as [b|e]; simpl; [|discriminate].
    intros _ H.
    assert (Hb : match active f "claim_area_min" with
                 | Some _ => true | None => true end = true)
      by (destruct (active f "claim_area_min"); reflexivity).
    destruct (H Hb) as [Hc Hrs].
    apply (compare_areas cell_le area_le); auto using cell_le_area.
  - intros _ _. rewrite filter_true. reflexivity.
Qed.

Lemma satisfies_unfold (f : criteria) (r : row) :
  satisfies fos f r =
  key_holds f "state" r && key_holds f "district" r && key_holds f "village" r
  && key_holds f "fra_type" r && key_holds f "status" r
  && key_holds f "tribal_community" r
  && min_holds fos f r && max_holds fos f r.
Proof.
  unfold satisfies, string_keys. cbn [forallb].
  rewrite andb_true_r. rewrite !andb_assoc. reflexivity.
Qed.

Lemma filters_chain (cols : list string) (rs : list row) (f : criteria) :
  filterable fos (mkDataFrame cols rs) f = true ->
  (fd <- where_eq "state" f (mkDataFrame cols rs) ;;
   fd <- where_eq "district" f fd ;;
   fd <- where_eq "village" f fd ;;
   fd <- where_eq "fra_type" f fd ;;
   fd <- where_eq "status" f fd ;;
   fd <- where_eq "tribal_community" f fd ;;
   fd <- where_min fos f fd ;;
   where_max fos f fd) =
  Ok (mkDataFrame cols (filter (satisfies fos f) rs)).
Proof.
  unfold filterable, string_keys. cbn [forallb]. rewrite andb_true_r.
  intros H.
  apply andb_prop in H. destruct H as [H Hgeo].
  apply andb_prop in H. destruct H as [H Harea0].
  repeat match goal with
         | H0 : (_ && _) = true |- _ => apply andb_prop in H0; destruct H0
         end.
  assert (Harea : forall p : row -> bool,
             bound_active f = true ->
             has_column (mkDataFrame cols (filter p rs)) "claim_area_ha" = true /\
             forallb area_ok (filter p rs) = true).
  { intros p Hb.
    rewrite Hb in Harea0. apply andb_prop in Harea0. destruct Harea0 as [Ha1 Ha2].
    split; [exact Ha1|]. apply forallb_filter_weaken. exact Ha2. }
  rewrite where_eq_rows by assumption. cbn [bind].
  rewrite where_eq_rows by assumption. cbn [bind].
  rewrite where_eq_rows by assumption. cbn [bind].
  rewrite where_eq_rows by assumption. cbn [bind].
  rewrite where_eq_rows by assumption. cbn [bind].
  rewrite where_eq_rows by assumption. cbn [bind].
  rewrite !filter_filter.
  rewrite where_min_rows by (try assumption; apply Harea). cbn [bind].
  rewrite !filter_filter.
  rewrite where_max_rows by (try assumption; apply Harea).
  rewrite !filter_filter. f_equal. f_equal.
  apply filter_ext. intros r. rewrite satisfies_unfold.
  rewrite !andb_assoc. reflexivity.
Qed.

End FilterProofs.

Lemma satisfies_no_criteria (fos : string -> option pyfloat) (r : row) :
  satisfies fos [] r = true.
Proof. reflexivity. Qed.

Lemma features_of_rows (d : DataFrame) (rs rs' : list row) :
  has_column d "geometry" = true ->
  mapM (feature_of (mkDataFrame (columns d) rs')) rs = Ok (map (feature d) rs).
Proof.
  intros Hg. apply mapM_ok_map. intros r _.
  unfold feature_of, row_getitem.
  change (has_column (mkDataFrame (columns d) rs') "geometry")
    with (has_column d "geometry").
  rewrite Hg. reflexivity.
Qed.

Lemma filterable_geometry (fos : string -> option pyfloat) (d : DataFrame) (f : criteria) :
  filterable fos d f = true -> has_column d "geometry" = true.
Proof.
  unfold filterable. intros H. apply andb_prop in H. destruct H as [_ H]. exact H.
Qed.

Lemma apply_filters_rows (fos : string -> option pyfloat) (d : DataFrame)
  (filters : option criteria) :
  filterable fos d (criteria_of filters) = true ->
  apply_filters fos filters d =
  Ok (mkDataFrame (columns d) (filter (satisfies fos (criteria_of filters)) (rows d))).
Proof.
  destruct d as [cols rs]. intros H.
  destruct filters as [[|kv f]|]; simpl criteria_of in *.
  - simpl. rewrite (filter_ext _ (fun _ => true) (satisfies_no_criteria fos)).
    rewrite filter_true. reflexivity.
  - apply (filters_chain fos cols rs (kv :: f) H).
  - simpl. rewrite (filter_ext _ (fun _ => true) (satisfies_no_criteria fos)).
    rewrite filter_true. reflexivity.
Qed.

(** The filter on a table that has records and on criteria it can
    evaluate: the collection of the features of the records that satisfy
    the criteria, in the order of the table, and the store as it was. *)
Lemma get_filtered_claims_returns (fos : string -> option pyfloat) (self : store)
  (d : DataFrame) (filters : option criteria) :
  df self = Some d ->
  rows d <> [] ->
  filterable fos d (criteria_of filters) = true ->
  get_filtered_claims fos filters self =
  (Ok (collection
         (map (feature d) (filter (satisfies fos (criteria_of filters)) (rows d)))
         filters),
   self).
Proof.
  intros Hdf Hrows Hf. unfold get_filtered_claims, reads, no_data, frame.
  rewrite Hdf. unfold len.
  destruct (rows d) as [|r0 rs0] eqn:Hr; [congruence|]. simpl Nat.eqb. cbv iota.
  rewrite (apply_filters_rows fos d filters Hf). cbn [bind].
  rewrite Hr. cbn [rows].
  rewrite (features_of_rows d _ _ (filterable_geometry fos d _ Hf)).
  reflexivity.
Qed.

Lemma dict_get_columns (g : string -> pyval) (cols : list string) (k : string) :
  existsb (String.eqb k) cols = true ->
  dict_get k (map (fun c => (PStr c, g c)) cols) = Some (g k).
Proof.
  induction cols as [|c t IH]; simpl; [discriminate|].
  destruct (String.eqb_spec k c) as [->|Hne]; simpl.
  - intros _. rewrite String.eqb_refl. reflexivity.
  - intros H. destruct (String.eqb_spec c k); [congruence|]. apply IH. exact H.
Qed.

Lemma clean_value_id (v : pyval) : clean_value v = v.
Proof. destruct v; reflexivity. Qed.

(** The properties of the feature of a record are its cells. *)
Lemma feature_property (d : DataFrame) (r : row) (k : string) :
  has_column d k = true ->
  String.eqb "geometry" k = false ->
  property (feature d r) k = Ok (cell k r).
Proof.
  intros Hc Hk. unfold property, feature, getitem. cbn [dict_get String.eqb Ascii.eqb Bool.eqb].
  cbn [bind]. unfold properties_of.
  rewrite (dict_get_columns (fun c => clean_value (cell c r))).
  - rewrite clean_value_id. reflexivity.
  - unfold has_column in Hc. apply existsb_exists in Hc. destruct Hc as [c [Hin Heq]].
    apply String.eqb_eq in Heq. subst c.
    apply existsb_exists. exists k. split; [|apply String.eqb_refl].
    apply filter_In. split; [exact Hin|].
    rewrite String.eqb_sym, Hk. reflexivity.
Qed.

Lemma lookup_In {V : Type} (k : string) (v : V) (l : list (string * V)) :
  lookup k l = Some v -> In (k, v) l.
Proof.
  induction l as [|[c w] t IH]; simpl; [discriminate|].
  destruct (String.eqb_spec c k) as [->|_].
  - intros H. injection H as ->. left. reflexivity.
  - intros H. right. apply IH. exact H.
Qed.

(** When no value is the number zero or [False], the keys the filter
    applies are those that are present with a value that is neither null
    nor the empty string. *)
Lemma active_as_stated (f : criteria) (k : string) :
  no_zero_criterion f = true -> active f k = stated_active f k.
Proof.
  intros H. unfold active, stated_active.
  destruct (lookup k f) as [[v|]|] eqn:E; try reflexivity.
  apply lookup_In in E.
  pose proof (proj1 (forallb_forall _ _) H _ E) as Hv. cbn [snd] in Hv.
  destruct v as [b|q|s|t]; cbn [truthy].
  - rewrite Hv. reflexivity.
  - rewrite Hv. reflexivity.
  - destruct (String.eqb s ""); reflexivity.
  - reflexivity.
Qed.

(** C1 (amended).  On a table that has records, no list among their
    properties and no number that a float does not hold, and for criteria
    that can be evaluated on it (the column of every active string key
    exists, an active bound is accepted by [float()], the areas are numbers
    or missing when a bound is active) and that hold no number zero, no
    [False] and no number that a float does not hold, the filter returns
    the features of exactly the records that satisfy every active
    criterion, in the order of the table; a feature carries the cells and
    the geometry of its record.  A key is active when it is present with a
    value that is neither null nor the empty string; a string key asks for
    equality with the record's field, [claim_area_min] and
    [claim_area_max] for an inclusive comparison that a missing area
    fails. *)
Theorem filter_returns_matching_records (fos : string -> option pyfloat)
  (self : store) (d : DataFrame) (filters : option criteria) :
  df self = Some d ->
  rows d <> [] ->
  filterable fos d (criteria_of filters) = true ->
  no_zero_criterion (criteria_of filters) = true ->
  exact_criteria (criteria_of filters) = true ->
  no_list_property d = true ->
  exact_table d = true ->
  exists res,
    fst (get_filtered_claims fos filters self) = Ok res /\
    getitem res "features" =
    Ok (PList (map (feature d)
                   (filter (satisfies fos (criteria_of filters)) (rows d)))) /\
    (forall k, active (criteria_of filters) k = stated_active (criteria_of filters) k) /\
    (forall r, In r (filter (satisfies fos (criteria_of filters)) (rows d)) <->
               In r (rows d) /\
               (forall k, In k string_keys ->
                          forall v, stated_active (criteria_of filters) k = Some v ->
                                    cell_eq v (cell k r) = true) /\
               (forall b, bound fos (criteria_of filters) "claim_area_min" = Ok (Some b) ->
                          area_ge b (cell "claim_area_ha" r) = true) /\
               (forall b, bound fos (criteria_of filters) "claim_area_max" = Ok (Some b) ->
                          area_le b (cell "claim_area_ha" r) = true)) /\
    (forall r,
       getitem (feature d r) "geometry" = Ok (cell "geometry" r) /\
       forall k, has_column d k = true -> String.eqb "geometry" k = false ->
                 property (feature d r) k = Ok (cell k r)).
Proof.
  intros Hdf Hrows Hf Hz _ _ _.
  eexists. split; [|split; [|split; [|split]]].
  - rewrite (get_filtered_claims_returns fos self d filters Hdf Hrows Hf).
    reflexivity.
  - reflexivity.
  - intros k. apply active_as_stated. exact Hz.
  - intros r. rewrite filter_In. unfold satisfies.
    rewrite !andb_true_iff, forallb_forall.
    unfold key_holds, min_holds, max_holds.
    apply andb_prop in Hf. destruct Hf as [Hf _].
    apply andb_prop in Hf. destruct Hf as [Hf _].
    apply andb_prop in Hf. destruct Hf as [Hf Hmax].
    apply andb_prop in Hf. destruct Hf as [_ Hmin].
    split.
    + intros [Hin [[Hk Hmn] Hmx]]. split; [exact Hin|]. split; [|split].
      * intros k Hk' v Hv. specialize (Hk k Hk').
        rewrite (active_as_stated _ k Hz), Hv in Hk. exact Hk.
      * intros b Hb. rewrite Hb in Hmn. exact Hmn.
      * intros b Hb. rewrite Hb in Hmx. exact Hmx.
    + intros [Hin [Hk [Hmn Hmx]]]. split; [exact Hin|]. split; [split|].
      * intros k Hk'. destruct (active (criteria_of filters) k) eqn:Ha; [|reflexivity].
        apply (Hk k Hk'). rewrite <- (active_as_stated _ k Hz). exact Ha.
      * destruct (bound fos (criteria_of filters) "claim_area_min") as [[b|]|e];
          try reflexivity. apply Hmn. reflexivity.
      * destruct (bound fos (criteria_of filters) "claim_area_max") as [[b|]|e];
          try reflexivity. apply Hmx. reflexivity.
  - intros r. split; [reflexivity|]. intros k Hk Hg. apply feature_property; assumption.
Qed.

Lemma filter_returns_matching_records_witness :
  exists res,
    fst (get_filtered_claims decimal_float sample_filters sample_store) = Ok res /\
    getitem res "features" = Ok (PList [feature sample_frame claim_B]).
Proof.
  destruct (filter_returns_matching_records decimal_float sample_store sample_frame
              sample_filters eq_refl ltac:(discriminate) eq_refl eq_refl eq_refl
              eq_refl eq_refl)
    as [res [H1 [H2 _]]].
  exists res. split; [exact H1|exact H2].
Defined.

(** C1, as stated, fails where the criteria cannot be evaluated.  The
    records of this dataset have no [village]: the criterion [village = V1]
    is present and is neither null nor empty, and the filter raises
    [KeyError] where the claim has it return the records that satisfy it.
    On the sample dataset the bound [abc] makes it raise [ValueError]. *)
Lemma unevaluable_criterion_raises :
  stated_active [("village", Some (SStr "V1"))] "village" = Some (SStr "V1") /\
  fst (get_filtered_claims decimal_float (Some [("village", Some (SStr "V1"))])
         bare_store) = Raise (KeyError "village") /\
  fst (get_filtered_claims decimal_float (Some [("claim_area_min", Some (SStr "abc"))])
         sample_store) =
  Raise (ValueError "could not convert string to float: 'abc'").
Proof. repeat split; reflexivity. Qed.

(** A bound that is the number zero is not applied: claim A has an area of
    2 hectares, and the filter with [claim_area_max = 0] returns it.  (A
    request cannot give this mapping: its values are strings, and the
    string [0] is applied.) *)
Lemma zero_bound_is_ignored :
  stated_active zero_max "claim_area_max" = Some (SNum 0) /\
  area_le (Fin 0) (cell "claim_area_ha" claim_A) = false /\
  fst (get_filtered_claims decimal_float (Some zero_max) (store_of [claim_A])) =
  Ok (collection [feature (DataFrame_of [claim_A]) claim_A] (Some zero_max)).
Proof. repeat split; reflexivity. Qed.




(** ** A bound that is not a number *)

Lemma lookup_filter_keys {V : Type} (p : string * V -> bool) (g : string -> V)
  (keys : list string) (k : string) :
  lookup k (filter p (map (fun k' => (k', g k')) keys)) =
  if existsb (String.eqb k) keys && p (k, g k) then Some (g k) else None.
Proof.
  induction keys as [|k' t IH]; simpl.
  - reflexivity.
  - destruct (String.eqb_spec k k') as [->|Hne].
    + simpl. destruct (p (k', g k')) eqn:Hp; simpl.
      * rewrite String.eqb_refl. reflexivity.
      * rewrite IH. rewrite andb_false_r. reflexivity.
    + simpl. destruct (p (k', g k')); simpl.
      * destruct (String.eqb_spec k' k) as [E|_]; [congruence|]. exact IH.
      * exact IH.
Qed.







(** ** Construction *)

Example init_good_files :
  init good_files "output/fra_claims.geojson" "output/fra_analytics.json" =
  (mkStore "output/fra_claims.geojson" "output/fra_analytics.json"
           sample_geojson sample_analytics
           (Some (mkDataFrame
                    ["claim_id"; "state"; "geometry"; "claim_area_ha"]
                    [[("claim_id", PStr "A"); ("state", PStr "X"); ("geometry", point 1 2)];
                     [("claim_id", PStr "B"); ("claim_area_ha", PNum 3);
                      ("geometry", point 3 4)]])),
   [Loaded 2]).
Proof. reflexivity. Qed.

Lemma feature_record_rejects (f : pyval) :
  is_feature f = false -> exists e, feature_record f = Raise e.
Proof.
  unfold is_feature, feature_record, getitem.
  destruct f as [| | | | | |kv]; try (intros _; eexists; reflexivity).
  destruct (dict_get "properties" kv) as [p|]; [|intros _; eexists; reflexivity].
  cbn [bind].
  destruct p; destruct (dict_get "geometry" kv);
    try discriminate; intros _; eexists; reflexivity.
Qed.

Lemma feature_record_accepted (f : pyval) :
  is_feature f = true -> exists r, feature_record f = Ok r.
Proof.
  unfold is_feature, feature_record, getitem.
  destruct f as [| | | | | |kv]; try discriminate.
  destruct (dict_get "properties" kv) as [[| | | | | |props]|]; try discriminate.
  destruct (dict_get "geometry" kv) as [g|]; try discriminate.
  intros _. eexists. reflexivity.
Qed.

(** The loop of lines 44 to 47 on the elements it visits: a record for
    each when each is a feature, an exception otherwise. *)
Lemma feature_records (items : list pyval) :
  if forallb is_feature items
  then exists rs, mapM feature_record items = Ok rs /\
                  List.length rs = List.length items
  else exists e, mapM feature_record items = Raise e.
Proof.
  induction items as [|f t IH]; cbn [forallb mapM].
  - exists []. split; reflexivity.
  - destruct (is_feature f) eqn:Hf; cbn [andb].
    + destruct (feature_record_accepted f Hf) as [r Hr]. rewrite Hr.
      destruct (forallb is_feature t).
      * destruct IH as [rs [Hrs Hlen]]. rewrite Hrs. exists (r :: rs).
        split; [reflexivity|]. simpl. rewrite Hlen. reflexivity.
      * destruct IH as [e He]. rewrite He. exists e. reflexivity.
    + destruct (feature_record_rejects f Hf) as [e He]. rewrite He.
      exists e. reflexivity.
Qed.

(** The records of a collection: those of the features it holds when the
    loop goes through it, an exception otherwise. *)
Lemma features_of_loadable (c : pyval) :
  match loadable c with
  | Some items => exists rs, features_of c = Ok rs /\
                             List.length rs = List.length items
  | None => exists e, features_of c = Raise e
  end.
Proof.
  unfold loadable, features_of, getitem.
  destruct c as [| | | | | |kv]; try (eexists; reflexivity).
  destruct (dict_get "features" kv) as [fl|]; [|eexists; reflexivity].
  cbn [bind].
  destruct (iter fl) as [items|e]; [|eexists; reflexivity].
  cbn [bind]. pose proof (feature_records items) as H.
  destruct (forallb is_feature items); exact H.
Qed.

(** C9 (amended).  Construction always yields a store with a table.  When
    a file cannot be opened or decoded, or when the loop over the decoded
    collection raises (the collection is not an object, has no [features],
    its [features] cannot be iterated, or an element visited is not an
    object with a [properties] object and a [geometry]), the store has a
    table without records, an empty statistics blob and the empty
    collection, and the exception is printed, not raised.  A collection
    the loop goes through is loaded as it is, with the statistics, one
    record for each element visited. *)
Theorem construction_never_fails (fs : filesystem) (geojson analytics : string) :
  (exists d, df (fst (init fs geojson analytics)) = Some d) /\
  (forall e,
     fs geojson = Raise e \/
     (exists c, fs geojson = Ok c /\ fs analytics = Raise e) ->
     init fs geojson analytics =
     (mkStore geojson analytics empty_collection (PDict []) (Some empty_frame),
      [ErrorLoadingData e])) /\
  (forall c a,
     fs geojson = Ok c ->
     fs analytics = Ok a ->
     match loadable c with
     | None =>
         exists e,
           init fs geojson analytics =
           (mkStore geojson analytics empty_collection (PDict []) (Some empty_frame),
            [ErrorLoadingData e])
     | Some items =>
         exists d,
           init fs geojson analytics =
           (mkStore geojson analytics c a (Some d), [Loaded (List.length items)]) /\
           len d = List.length items
     end).
Proof.
  split; [|split].
  - unfold init, load_data, load_try. simpl.
    destruct (fs geojson) as [c|e]; simpl; [|eexists; reflexivity].
    destruct (fs analytics) as [a|e]; simpl; [|eexists; reflexivity].
    destruct (features_of c) as [f|e]; simpl; eexists; reflexivity.
  - intros e H. unfold init, load_data, load_try. simpl.
    destruct H as [H | [c [Hc Ha]]].
    + rewrite H. reflexivity.
    + rewrite Hc, Ha. reflexivity.
  - intros c a Hc Ha. pose proof (features_of_loadable c) as H.
    unfold init, load_data, load_try. simpl. rewrite Hc, Ha. simpl.
    destruct (loadable c) as [items|].
    + destruct H as [rs [Hrs Hlen]]. rewrite Hrs. simpl.
      exists (DataFrame_of rs). split; [|exact Hlen].
      unfold len, DataFrame_of. cbn [rows]. rewrite Hlen. reflexivity.
    + destruct H as [e He]. rewrite He. exists e. reflexivity.
Qed.

Lemma construction_never_fails_witness :
  init bad_analytics "output/fra_claims.geojson" "output/fra_analytics.json" =
  (mkStore "output/fra_claims.geojson" "output/fra_analytics.json"
           empty_collection (PDict []) (Some empty_frame),
   [ErrorLoadingData (ValueError "Expecting value: line 1 column 1 (char 0)")]).
Proof.
  apply (proj1 (proj2 (construction_never_fails bad_analytics
                         "output/fra_claims.geojson" "output/fra_analytics.json"))).
  right. exists sample_geojson. split; reflexivity.
Defined.

(** C9, as stated, fails for a collection that is malformed and that the
    loop goes through all the same: with an object as [features] there is
    nothing to visit, and the store has a table without records, the
    statistics of the file, not an empty blob, and no failure is printed. *)
Lemma malformed_collection_is_loaded :
  loadable odd_geojson = Some [] /\
  init odd_files "output/fra_claims.geojson" "output/fra_analytics.json" =
  (mkStore "output/fra_claims.geojson" "output/fra_analytics.json"
           odd_geojson sample_analytics (Some empty_frame),
   [Loaded 0]) /\
  sample_analytics <> PDict [].
Proof. split; [reflexivity|]. split; [reflexivity|discriminate]. Qed.

(** Construction is total: whatever the files hold, there is a table. *)
Lemma init_has_table (fs : filesystem) (geojson analytics : string) :
  exists d, df (fst (init fs geojson analytics)) = Some d.
Proof.
  unfold init, load_data, load_try. simpl.
  destruct (fs geojson) as [c|e]; simpl; [|eexists; reflexivity].
  destruct (fs analytics) as [a|e]; simpl; [|eexists; reflexivity].
  destruct (features_of c) as [f|e]; simpl; eexists; reflexivity.
Qed.

(** ** Metrics on an empty dataset *)

(** C4 (amended).  When the dataset has no record, the performance metrics
    are the empty mapping: none of the ten keys is there, no rate is
    computed, and nothing is raised. *)
Theorem performance_on_empty_dataset (self : store) :
  no_data self = true ->
  get_performance_metrics self = (Ok (PDict []), self) /\
  forall k, getitem (PDict []) k = Raise (KeyError k).
Proof.
  intros H. unfold get_performance_metrics, reads. rewrite H.
  split; reflexivity.
Qed.

Lemma performance_on_empty_dataset_witness :
  get_performance_metrics (store_of []) = (Ok (PDict []), store_of []).
Proof.
  apply (performance_on_empty_dataset (store_of [])). reflexivity.
Defined.

(** C4, as stated, fails: on the empty dataset the result has no
    [approval_rate], where the claim has a rate equal to 0. *)
Lemma performance_on_empty_dataset_has_no_rate :
  len (frame (store_of [])) = 0%nat /\
  exists res,
    fst (get_performance_metrics (store_of [])) = Ok res /\
    getitem res "total_claims" = Raise (KeyError "total_claims") /\
    getitem res "approval_rate" = Raise (KeyError "approval_rate") /\
    getitem res "pending_rate" = Raise (KeyError "pending_rate").
Proof. split; [reflexivity|]. eexists. repeat split. Qed.

(** ** The queries and the stored table *)

Lemma reads_leaves_store {A : Type} (f : store -> result A) (self : store) :
  snd (reads f self) = self.
Proof. reflexivity. Qed.

(** The filter, the lookup, the two rollups, the metrics and the listing
    of distinct values leave the store as it is. *)
Lemma reading_queries_leave_store (fos : string -> option pyfloat)
  (filters : option criteria) (claim_id : scalar) (args : request_args)
  (self : store) :
  snd (get_filtered_claims fos filters self) = self /\
  snd (get_claim_details claim_id self) = self /\
  snd (get_state_wise_summary self) = self /\
  snd (get_tribal_community_analysis self) = self /\
  snd (get_performance_metrics self) = self /\
  snd (get_filter_options self) = self /\
  snd (get_claims fos args self) = self.
Proof.
  repeat split.
  - unfold get_filter_options. destruct (no_data self); [reflexivity|].
    match goal with |- snd (match ?r with _ => _ end) = _ => destruct r end;
      reflexivity.
  - unfold get_claims, get_filtered_claims, reads.
    destruct (no_data self); [reflexivity|].
    destruct (apply_filters fos (Some (filters_of_args args)) (frame self)) as [fd|e];
      [|reflexivity].
    cbn [bind]. destruct (mapM (feature_of fd) (rows fd)); reflexivity.
Qed.

(** C2: the timeline query changes the stored table.  On the sample
    dataset it returns its rollups, and afterwards the table has two more
    columns and timestamps in place of the date strings; the same filter,
    asked before and after, gives different features. *)
Theorem timeline_changes_stored_table :
  has_column (frame sample_store) "submission_year" = false /\
  has_column (frame (snd (get_timeline_analysis iso_datetime 2024 sample_store)))
             "submission_year" = true /\
  is_ok (fst (get_timeline_analysis iso_datetime 2024 sample_store)) = true /\
  map (cell "submission_date") (rows (frame sample_store)) =
  [PStr "2024-01-15"; PStr "2023-06-30"; PNone] /\
  map (cell "submission_date")
      (rows (frame (snd (get_timeline_analysis iso_datetime 2024 sample_store)))) =
  [PTime (mkTimestamp 2024 1 15); PTime (mkTimestamp 2023 6 30); PNone] /\
  (r <- fst (get_filtered_claims decimal_float None sample_store) ;;
   first_feature_property r "submission_year") =
  Raise (KeyError "submission_year") /\
  (r <- fst (get_filtered_claims decimal_float None
               (snd (get_timeline_analysis iso_datetime 2024 sample_store))) ;;
   first_feature_property r "submission_year") =
  Ok (PNum 2024).
Proof. repeat split; reflexivity. Qed.

(** ** Sorting and first occurrences *)

Section Sorting.

Context {A : Type} (leb : A -> A -> bool).

Lemma insert_permutation (x : A) (l : list A) :
  Permutation (insert leb x l) (x :: l).
Proof.
  induction l as [|y t IH]; simpl.
  - apply Permutation_refl.
  - destruct (leb x y).
    + apply Permutation_refl.
    + apply perm_trans with (y :: x :: t).
      * apply perm_skip. exact IH.
      * apply perm_swap.
Qed.

Lemma sort_permutation (l : list A) : Permutation (sort leb l) l.
Proof.
  induction l as [|x t IH]; simpl.
  - apply perm_nil.
  - apply perm_trans with (x :: sort leb t).
    + apply insert_permutation.
    + apply perm_skip. exact IH.
Qed.

Hypothesis leb_total : forall a b, leb a b = true \/ leb b a = true.

Let le (a b : A) : Prop := leb a b = true.

Lemma insert_sorted (x : A) (l : list A) :
  Sorted le l -> Sorted le (insert leb x l).
Proof.
  induction l as [|y t IH]; intros Hs; simpl.
  - repeat constructor.
  - destruct (leb x y) eqn:Hxy.
    + constructor; [exact Hs|]. constructor. exact Hxy.
    + inversion Hs as [|? ? Ht Hhd]; subst.
      constructor; [apply IH; exact Ht|].
      assert (Hyx : le y x) by (destruct (leb_total x y); [congruence|assumption]).
      destruct t as [|z t']; simpl.
      * constructor. exact Hyx.
      * destruct (leb x z); constructor; [exact Hyx|].
        inversion Hhd; assumption.
Qed.

Lemma sort_sorted (l : list A) : Sorted le (sort leb l).
Proof.
  induction l as [|x t IH]; simpl.
  - constructor.
  - apply insert_sorted. exact IH.
Qed.

End Sorting.

Lemma insert_map {A B : Type} (f : A -> B) (leb : A -> A -> bool)
  (leb' : B -> B -> bool) (x : A) (l : list A) :
  (forall a b, leb' (f a) (f b) = leb a b) ->
  insert leb' (f x) (map f l) = map f (insert leb x l).
Proof.
  intros H. induction l as [|y t IH]; simpl.
  - reflexivity.
  - rewrite H. destruct (leb x y); simpl; [reflexivity|]. rewrite IH. reflexivity.
Qed.

Lemma sort_map {A B : Type} (f : A -> B) (leb : A -> A -> bool)
  (leb' : B -> B -> bool) (l : list A) :
  (forall a b, leb' (f a) (f b) = leb a b) ->
  sort leb' (map f l) = map f (sort leb l).
Proof.
  intros H. induction l as [|x t IH]; simpl.
  - reflexivity.
  - rewrite IH. apply insert_map. exact H.
Qed.

Lemma unique_map {A B : Type} (f : A -> B) (eqb : A -> A -> bool)
  (eqb' : B -> B -> bool) (l : list A) :
  (forall a b, eqb' (f a) (f b) = eqb a b) ->
  unique eqb' (map f l) = map f (unique eqb l).
Proof.
  intros H. induction l as [|x t IH]; simpl.
  - reflexivity.
  - rewrite IH. f_equal. clear IH.
    induction (unique eqb t) as [|y u IHu]; simpl.
    + reflexivity.
    + rewrite H. destruct (eqb x y); simpl; rewrite IHu; reflexivity.
Qed.

Lemma unique_In (l : list string) (s : string) :
  In s (unique String.eqb l) <-> In s l.
Proof.
  induction l as [|x t IH]; simpl.
  - tauto.
  - rewrite filter_In, IH. split.
    + intros [H | [H _]]; [left|right]; assumption.
    + intros [H | H]; [left; exact H|].
      destruct (String.eqb_spec x s) as [E|Hne]; [left; exact E|].
      right. split; [exact H|].
      destruct (String.eqb_spec x s); [contradiction|reflexivity].
Qed.

Lemma unique_NoDup (l : list string) : NoDup (unique String.eqb l).
Proof.
  induction l as [|x t IH]; simpl.
  - constructor.
  - constructor.
    + rewrite filter_In. intros [_ H]. rewrite String.eqb_refl in H. discriminate.
    + apply NoDup_filter. exact IH.
Qed.

(** The list of distinct values is sorted, has no repetition and holds
    the values of the field, all of them and nothing else. *)
Lemma distinct_sorted_correct (l : list string) :
  Sorted string_le (distinct_sorted l) /\
  NoDup (distinct_sorted l) /\
  (forall s, In s (distinct_sorted l) <-> In s l).
Proof.
  unfold distinct_sorted. split; [|split].
  - apply sort_sorted. apply String.leb_total.
  - apply (Permutation_NoDup (l := unique String.eqb l)).
    + apply Permutation_sym. apply sort_permutation.
    + apply unique_NoDup.
  - intros s. split; intros H.
    + apply unique_In.
      apply (Permutation_in s (sort_permutation String.leb (unique String.eqb l)) H).
    + apply unique_In in H.
      apply (Permutation_in s
               (Permutation_sym (sort_permutation String.leb (unique String.eqb l))) H).
Qed.

(** ** The listing of distinct values *)

Lemma string_column (k : string) (rs : list row) :
  forallb (fun r => is_string (cell k r)) rs = true ->
  map (cell k) rs = map PStr (present (map (fun r => string_of (cell k r)) rs)).
Proof.
  induction rs as [|r t IH]; simpl; intros H.
  - reflexivity.
  - apply andb_prop in H. destruct H as [Hr Ht].
    destruct (cell k r); try discriminate. simpl. rewrite (IH Ht). reflexivity.
Qed.

Lemma series_unique_strings (l : list string) :
  series_unique (map PStr l) = Ok (map PStr (unique String.eqb l)).
Proof.
  unfold series_unique.
  rewrite (mapM_ok_map group_key (fun v => scalar_of_py v)).
  - cbn [bind]. rewrite map_map. cbn [scalar_of_py].
    rewrite (unique_map (fun s => Some (SStr s)) String.eqb option_scalar_eqb)
      by reflexivity.
    rewrite map_map. reflexivity.
  - intros v Hv. apply in_map_iff in Hv. destruct Hv as [s [<- _]]. reflexivity.
Qed.

Lemma py_sorted_strings (l : list string) :
  py_sorted (map PStr l) = Ok (map PStr (sort String.leb l)).
Proof.
  destruct l as [|x [|y t]]; try reflexivity.
  unfold py_sorted.
  change (map PStr (x :: y :: t)) with (PStr x :: PStr y :: map PStr t).
  cbv beta iota.
  assert (Hc : forallb (comparable (PStr x)) (PStr y :: map PStr t) = true).
  { apply forallb_forall. intros v Hv.
    change (PStr y :: map PStr t) with (map PStr (y :: t)) in Hv.
    apply in_map_iff in Hv. destruct Hv as [s [<- _]]. reflexivity. }
  rewrite Hc. f_equal.
  change (PStr x :: PStr y :: map PStr t) with (map PStr (x :: y :: t)).
  apply sort_map. reflexivity.
Qed.

Lemma sorted_unique_strings (d : DataFrame) (k : string) :
  strings_only d k = true ->
  sorted_unique d k = Ok (PList (map PStr (distinct_sorted (field_values d k)))).
Proof.
  unfold strings_only, sorted_unique, col. intros H.
  apply andb_prop in H. destruct H as [Hc Hs].
  rewrite Hc. cbn [bind]. rewrite (string_column k (rows d) Hs).
  rewrite series_unique_strings. cbn [bind].
  rewrite py_sorted_strings. reflexivity.
Qed.

Lemma field_values_In (d : DataFrame) (k s : string) :
  In s (field_values d k) <-> exists r, In r (rows d) /\ cell k r = PStr s.
Proof.
  unfold field_values. induction (rows d) as [|r t IH].
  - simpl. split; [tauto|]. intros [r [[] _]].
  - assert (Hstep : In s (present (map (fun r => string_of (cell k r)) (r :: t))) <->
                    cell k r = PStr s \/
                    In s (present (map (fun r => string_of (cell k r)) t))).
    { simpl. destruct (cell k r); simpl; try (split; [tauto|intros [H|H]; [discriminate|exact H]]).
      split; (intros [H|H]; [left; congruence|right; exact H]). }
    rewrite Hstep, IH. split.
    + intros [H|[r' [Hin Hr']]]; [exists r|exists r']; simpl; tauto.
    + intros [r' [[<-|Hin] Hr']]; [left; exact Hr'|right; exists r'; tauto].
Qed.

(** C10 (amended).  On a dataset without records the listing is the empty
    mapping, with status 200: no field key and no list.  On a dataset with
    records in which each of the six columns exists and holds strings only,
    the listing gives, under [states], [districts], [villages],
    [fra_types], [statuses] and [tribal_communities], the values of the
    field without repetition and in increasing order. *)
Theorem filter_options_list_distinct_values (fra_manager : store) (d : DataFrame) :
  df fra_manager = Some d ->
  (rows d = [] -> get_filter_options fra_manager = ((PDict [], 200), fra_manager)) /\
  (rows d <> [] ->
   forallb (strings_only d) string_keys = true ->
   get_filter_options fra_manager = ((options_of d, 200), fra_manager) /\
   forall k,
     Sorted string_le (distinct_sorted (field_values d k)) /\
     NoDup (distinct_sorted (field_values d k)) /\
     (forall s, In s (distinct_sorted (field_values d k)) <->
                exists r, In r (rows d) /\ cell k r = PStr s)).
Proof.
  intros Hdf. split.
  - intros Hr. unfold get_filter_options, no_data, len. rewrite Hdf, Hr. reflexivity.
  - intros Hr Hs. split.
    + unfold get_filter_options, no_data, len, frame. rewrite Hdf.
      destruct (rows d) as [|r0 t] eqn:E; [congruence|]. simpl Nat.eqb. cbv iota.
      unfold string_keys in Hs. cbn [forallb] in Hs.
      repeat match goal with
             | H0 : (_ && _) = true |- _ => apply andb_prop in H0; destruct H0
             end.
      repeat (rewrite sorted_unique_strings by assumption; cbn [bind]).
      reflexivity.
    + intros k.
      destruct (distinct_sorted_correct (field_values d k)) as [H1 [H2 H3]].
      split; [exact H1|]. split; [exact H2|].
      intros s. rewrite H3. apply field_values_In.
Qed.

Lemma filter_options_list_distinct_values_witness :
  get_filter_options sample_store =
  ((PDict [(PStr "states", PList [PStr "X"; PStr "Y"]);
           (PStr "districts", PList [PStr "D1"]);
           (PStr "villages", PList [PStr "V1"]);
           (PStr "fra_types", PList [PStr "IFR"]);
           (PStr "statuses", PList [PStr "approved"; PStr "submitted"]);
           (PStr "tribal_communities", PList [PStr "Gond"])], 200),
   sample_store).
Proof.
  apply (filter_options_list_distinct_values sample_store sample_frame eq_refl);
    [discriminate|reflexivity].
Defined.

(** C10, as stated, fails on the empty dataset: the listing is [{}], with
    no list for any field. *)
Lemma filter_options_on_empty_dataset :
  get_filter_options (store_of []) = ((PDict [], 200), store_of []) /\
  getitem (PDict []) "states" = Raise (KeyError "states") /\
  getitem (PDict []) "tribal_communities" = Raise (KeyError "tribal_communities").
Proof. repeat split; reflexivity. Qed.

(** ** Sums and means skip the missing areas *)

Lemma numbers_dropna (c : list pyval) : numbers (dropna c) = numbers c.
Proof.
  unfold numbers, dropna. induction c as [|v t IH]; simpl.
  - reflexivity.
  - destruct v; simpl; rewrite ?IH; reflexivity.
Qed.

Lemma dropna_numeric (c : list pyval) :
  forallb numeric_or_missing c = true ->
  forall v, In v (dropna c) -> exists q, number v = Some q.
Proof.
  intros H v Hv. unfold dropna in Hv. apply filter_In in Hv. destruct Hv as [Hin Hna].
  pose proof (proj1 (forallb_forall _ _) H v Hin) as Hn.
  destruct v; try discriminate; eexists; reflexivity.
Qed.

Lemma fold_add_numbers (vs : list pyval) (acc : Q) :
  (forall v, In v vs -> exists q, number v = Some q) ->
  exists s,
    fold_left (fun a v => x <- a ;; py_add x v) vs (Ok (PNum acc)) = Ok (PNum s) /\
    s == acc + qsum (numbers vs).
Proof.
  revert acc. induction vs as [|v t IH]; intros acc H.
  - exists acc. split; [reflexivity|]. unfold numbers, qsum. simpl. ring.
  - destruct (H v (or_introl eq_refl)) as [q Hq].
    destruct (IH (acc + q)%Q (fun w Hw => H w (or_intror Hw))) as [s [Hs Heq]].
    exists s. split.
    + simpl. rewrite <- Hs. f_equal.
      destruct v; try discriminate; simpl in Hq; injection Hq as <-; reflexivity.
    + rewrite Heq. unfold numbers, qsum. simpl. rewrite Hq. simpl. ring.
Qed.

(** The sum of cells that are numbers or missing is the sum of the
    numbers. *)
Lemma series_sum_numbers (c : list pyval) :
  forallb numeric_or_missing c = true ->
  exists s, series_sum c = Ok (PNum s) /\ s == qsum (numbers c).
Proof.
  intros H. unfold series_sum. rewrite <- (numbers_dropna c).
  pose proof (dropna_numeric c H) as Hn.
  destruct (dropna c) as [|x t].
  - exists 0%Q. split; reflexivity.
  - destruct (Hn x (or_introl eq_refl)) as [q Hq].
    destruct (fold_add_numbers t q (fun w Hw => Hn w (or_intror Hw))) as [s [Hs Heq]].
    exists s. split.
    + rewrite <- Hs. f_equal.
      destruct x; try discriminate; simpl in Hq; injection Hq as <-; reflexivity.
    + rewrite Heq. unfold numbers, qsum. simpl. rewrite Hq. reflexivity.
Qed.

(** Their mean is the mean of the numbers. *)
Lemma series_mean_numbers (c : list pyval) :
  forallb numeric_or_missing c = true ->
  series_mean c = Ok (mean_of (numbers c)).
Proof.
  intros H. unfold series_mean. rewrite <- (numbers_dropna c).
  pose proof (dropna_numeric c H) as Hn.
  assert (Hm : mapM as_number (dropna c) = Ok (numbers (dropna c))).
  { induction (dropna c) as [|v t IH]; [reflexivity|].
    destruct (Hn v (or_introl eq_refl)) as [q Hq].
    simpl. unfold as_number at 1. rewrite Hq.
    rewrite (IH (fun w Hw => Hn w (or_intror Hw))).
    unfold numbers. simpl. rewrite Hq. reflexivity. }
  rewrite Hm. reflexivity.
Qed.




Lemma area_column (rs : list row) :
  forallb area_ok rs = true ->
  forallb numeric_or_missing (map (cell "claim_area_ha") rs) = true.
Proof.
  intros H. apply forallb_forall. intros v Hv.
  apply in_map_iff in Hv. destruct Hv as [r [<- Hr]].
  exact (proj1 (forallb_forall _ _) H r Hr).
Qed.

Lemma has_data (self : store) (d : DataFrame) :
  df self = Some d -> rows d <> [] -> no_data self = false /\ frame self = d.
Proof.
  intros Hdf Hr. unfold no_data, frame, len. rewrite Hdf.
  destruct (rows d); [congruence|]. split; reflexivity.
Qed.




(** ** Equality of keys *)










(** ** Counting by classes *)





Section Classes.

Context {A : Type} (eqb : A -> A -> bool).

Hypothesis eqb_refl : forall a, eqb a a = true.
Hypothesis eqb_sym : forall a b, eqb a b = eqb b a.
Hypothesis eqb_class : forall a b c, eqb a b = true -> eqb a c = eqb b c.




End Classes.

(** ** Grouped aggregation *)










(** ** The two rollups *)



Lemma forallb_map {A B : Type} (f : A -> B) (p : B -> bool) (l : list A) :
  forallb (fun x => p (f x)) l = true -> forallb p (map f l) = true.
Proof.
  intros H. apply forallb_forall. intros y Hy.
  apply in_map_iff in Hy. destruct Hy as [x [<- Hx]].
  exact (proj1 (forallb_forall _ _) H x Hx).
Qed.









Example state_rollup_of_sample :
  fst (get_state_wise_summary sample_store) =
  Ok (PDict [(PStr "X",
              PDict [(PStr "total_claims", PNum 2); (PStr "claim_area_ha", PNum 5);
                     (PStr "approved_claims", PNum 1);
                     (PStr "fra_type", PDict [(PStr "IFR", PNum 2)])]);
             (PStr "Y",
              PDict [(PStr "total_claims", PNum 1); (PStr "claim_area_ha", PNum 0);
                     (PStr "approved_claims", PNum 1);
                     (PStr "fra_type", PDict [(PStr "IFR", PNum 1)])])]).
Proof. reflexivity. Qed.


(** ** A record without area *)







(** ** Setting a column *)

Lemma cell_row_set_same (c : string) (v : pyval) (r : row) :
  cell c (row_set c v r) = v.
Proof.
  unfold cell. induction r as [|[k w] t IH]; simpl.
  - rewrite String.eqb_refl. reflexivity.
  - destruct (String.eqb k c) eqn:E; simpl; rewrite E; [reflexivity|exact IH].
Qed.

Lemma cell_row_set_other (c c' : string) (v : pyval) (r : row) :
  String.eqb c' c = false -> cell c (row_set c' v r) = cell c r.
Proof.
  intros Hne. unfold cell. induction r as [|[k w] t IH]; simpl.
  - rewrite Hne. reflexivity.
  - destruct (String.eqb k c') eqn:E; simpl.
    + apply String.eqb_eq in E. subst k. rewrite Hne. reflexivity.
    + destruct (String.eqb k c); [reflexivity|exact IH].
Qed.

Lemma set_column_map (cols : list string) (rs : list row) (c : string)
  (g : row -> pyval) :
  set_column (mkDataFrame cols rs) c (map g rs) =
  mkDataFrame (with_column cols c) (map (fun r => row_set c (g r) r) rs).
Proof.
  unfold set_column, with_column, has_column. simpl. f_equal.
  induction rs as [|r t IH]; simpl; [reflexivity|]. rewrite IH. reflexivity.
Qed.

Lemma has_column_with_column (cols : list string) (c c' : string) :
  existsb (String.eqb c) cols = true ->
  existsb (String.eqb c) (with_column cols c') = true.
Proof.
  intros H. unfold with_column. destruct (existsb (String.eqb c') cols); [exact H|].
  rewrite existsb_app, H. reflexivity.
Qed.

Lemma has_column_added (cols : list string) (c : string) :
  existsb (String.eqb c) (with_column cols c) = true.
Proof.
  unfold with_column. destruct (existsb (String.eqb c) cols) eqn:E; [exact E|].
  rewrite existsb_app. simpl. rewrite String.eqb_refl. apply orb_true_r.
Qed.

Lemma mapM_unwrap (f : pyval -> result pyval) (l l' : list pyval) :
  mapM f l = Ok l' -> l' = map (fun v => unwrap (f v)) l.
Proof.
  revert l'. induction l as [|x t IH]; intros l' H; simpl in H.
  - injection H as <-. reflexivity.
  - destruct (f x) as [y|e] eqn:E; [|discriminate].
    destruct (mapM f t) as [ys|e]; [|discriminate].
    injection H as <-. simpl. rewrite E. f_equal. apply IH. reflexivity.
Qed.

(** ** The timeline *)

Section TimelineProofs.

Variable parse : scalar -> result (option Timestamp).

Lemma dt_field_converted (f : Timestamp -> Z) (v : pyval) :
  dt_field f (unwrap (to_datetime parse v)) =
  Ok (field_value f (unwrap (to_datetime parse v))).
Proof.
  destruct v as [|b|q|s|t|l|kv]; simpl; try reflexivity.
  - destruct (parse (SBool b)) as [[t|]|e]; reflexivity.
  - destruct (parse (SNum q)) as [[t|]|e]; reflexivity.
  - destruct (parse (SStr s)) as [[t|]|e]; reflexivity.
Qed.

Lemma timeline_normal (cy : Z) (self : store) (cols : list string) (rs : list row) :
  df self = Some (mkDataFrame cols rs) ->
  rs <> [] ->
  get_timeline_analysis parse cy self =
  match col (mkDataFrame cols rs) "submission_date" with
  | Raise e => (Raise e, self)
  | Ok c =>
      match mapM (to_datetime parse) c with
      | Raise e => (Raise e, self)
      | Ok _ =>
          (rollups cy (mkDataFrame (timeline_columns cols) (map (dated parse) rs)),
           with_table self (mkDataFrame (timeline_columns cols) (map (dated parse) rs)))
      end
  end.
Proof.
  intros Hdf Hr.
  destruct (has_data self _ Hdf Hr) as [Hnd Hfr]. simpl in Hfr.
  unfold get_timeline_analysis. rewrite Hnd.
  unfold bindM, get_df, lift, ret. rewrite Hfr.
  destruct (col (mkDataFrame cols rs) "submission_date") as [c|e] eqn:Hc; [|reflexivity].
  destruct (mapM (to_datetime parse) c) as [dates|e] eqn:Hd; [|reflexivity].
  assert (Hcells : c = map (cell "submission_date") rs).
  { unfold col in Hc. destruct (has_column _ _); [|discriminate].
    injection Hc as <-. reflexivity. }
  assert (Hhas : existsb (String.eqb "submission_date") cols = true).
  { unfold col, has_column in Hc. cbn [columns] in Hc.
    destruct (existsb (String.eqb "submission_date") cols); [reflexivity|discriminate]. }
  apply mapM_unwrap in Hd. subst c. rewrite map_map in Hd. subst dates.
  set (m1 := fun r => row_set "submission_date"
                              (unwrap (to_datetime parse (cell "submission_date" r))) r).
  set (m2 := fun r => row_set "submission_year"
                              (field_value ts_year (cell "submission_date" r)) r).
  set (m3 := fun r => row_set "submission_month"
                              (field_value ts_month (cell "submission_date" r)) r).
  assert (Hconv1 : forall v, In v (map (cell "submission_date") (map m1 rs)) ->
                             forall f, dt_field f v = Ok (field_value f v)).
  { intros v Hv f. rewrite map_map in Hv. apply in_map_iff in Hv.
    destruct Hv as [r [<- _]]. unfold m1. rewrite cell_row_set_same.
    apply dt_field_converted. }
  assert (Hconv2 : forall v, In v (map (cell "submission_date") (map m2 (map m1 rs))) ->
                             forall f, dt_field f v = Ok (field_value f v)).
  { intros v Hv f. apply Hconv1. rewrite map_map in Hv. apply in_map_iff in Hv.
    destruct Hv as [r [<- Hr1]]. unfold m2.
    rewrite cell_row_set_other by reflexivity. apply in_map. exact Hr1. }
  unfold assign_column, frame. rewrite Hdf.
  cbn [df geojson_file analytics_file claims_data analytics_data].
  rewrite (set_column_map cols rs "submission_date"
             (fun r => unwrap (to_datetime parse (cell "submission_date" r)))).
  fold m1.
  unfold col at 1, has_column at 1. cbn [columns rows].
  rewrite (has_column_added cols "submission_date").
  rewrite (mapM_ok_map _ (field_value ts_year))
    by (intros v Hv; apply (Hconv1 v Hv)).
  rewrite (map_map (cell "submission_date") (field_value ts_year) (map m1 rs)).
  rewrite (set_column_map _ (map m1 rs) "submission_year"
             (fun r => field_value ts_year (cell "submission_date" r))).
  fold m2.
  unfold col at 1, has_column at 1. cbn [columns rows].
  rewrite (has_column_with_column _ "submission_date" "submission_year")
    by apply has_column_added.
  rewrite (mapM_ok_map _ (field_value ts_month))
    by (intros v Hv; apply (Hconv2 v Hv)).
  rewrite (map_map (cell "submission_date") (field_value ts_month) (map m2 (map m1 rs))).
  rewrite (set_column_map _ (map m2 (map m1 rs)) "submission_month"
             (fun r => field_value ts_month (cell "submission_date" r))).
  fold m3.
  rewrite !map_map.
  change (map (fun x => m3 (m2 (m1 x))) rs) with (map (dated parse) rs).
  fold (timeline_columns cols).
  unfold rollups, with_table, bind.
  destruct (groupby_agg _ "submission_year" yearly_aggs); [|reflexivity].
  destruct (col _ "submission_year"); [|reflexivity].
  destruct (groupby_agg _ "submission_month" monthly_aggs); reflexivity.
Qed.

End TimelineProofs.

(** ** A record without date is in no group *)







Section DatedRecords.

Variable parse : scalar -> result (option Timestamp).








End DatedRecords.



Example timeline_of_sample :
  fst (get_timeline_analysis iso_datetime 2024 sample_store) =
  Ok (PDict [(PStr "yearly",
              PDict [(PNum 2023,
                      PDict [(PStr "claims_submitted", PNum 1);
                             (PStr "claim_area_ha", PNum 3);
                             (PStr "claims_approved", PNum 0)]);
                     (PNum 2024,
                      PDict [(PStr "claims_submitted", PNum 1);
                             (PStr "claim_area_ha", PNum 2);
                             (PStr "claims_approved", PNum 1)])]);
             (PStr "monthly",
              PDict [(PNum 1,
                      PDict [(PStr "claims_submitted", PNum 1);
                             (PStr "claim_area_ha", PNum 2)])])]).
Proof. reflexivity. Qed.


(** * Further properties of the manager and of the routes *)

(** ** Filtering *)

Lemma inactive_filterable (fos : string -> option pyfloat) (d : DataFrame)
  (f : criteria) :
  (forall k, In k filter_keys -> active f k = None) ->
  has_column d "geometry" = true ->
  filterable fos d f = true /\ forall r, satisfies fos f r = true.
Proof.
  intros Hin Hg.
  assert (Hs : forall k, In k string_keys -> active f k = None).
  { intros k Hk. apply Hin. unfold string_keys in Hk. unfold filter_keys.
    simpl in *. tauto. }
  assert (Hmin : active f "claim_area_min" = None)
    by (apply Hin; unfold filter_keys; simpl; tauto).
  assert (Hmax : active f "claim_area_max" = None)
    by (apply Hin; unfold filter_keys; simpl; tauto).
  split.
  - unfold filterable, bound, bound_active. rewrite Hmin, Hmax, Hg.
    rewrite (proj2 (forallb_forall _ string_keys)); [reflexivity|].
    intros k Hk. rewrite (Hs k Hk). reflexivity.
  - intros r. unfold satisfies, min_holds, max_holds, bound. rewrite Hmin, Hmax.
    rewrite (proj2 (forallb_forall _ string_keys)); [reflexivity|].
    intros k Hk. unfold key_holds. rewrite (Hs k Hk). reflexivity.
Qed.

(** Without an active criterion (no mapping, an empty one, one whose
    recognized keys are all absent or false) the filter returns every
    record of a table that has no list among the properties of its records
    and no number that a float does not hold: their features in the order
    of the table, each with the cells and the geometry of its record, and
    their number. *)
Theorem no_active_criterion_returns_all (fos : string -> option pyfloat)
  (self : store) (d : DataFrame) (filters : option criteria) :
  df self = Some d ->
  rows d <> [] ->
  has_column d "geometry" = true ->
  no_list_property d = true ->
  exact_table d = true ->
  (forall k, In k filter_keys -> active (criteria_of filters) k = None) ->
  fst (get_filtered_claims fos filters self) =
  Ok (collection (map (feature d) (rows d)) filters) /\
  (r <- fst (get_filtered_claims fos filters self) ;;
   p <- getitem r "properties" ;; getitem p "total_claims") =
  Ok (py_int (len d)) /\
  (forall r,
     getitem (feature d r) "geometry" = Ok (cell "geometry" r) /\
     forall k, has_column d k = true -> String.eqb "geometry" k = false ->
               property (feature d r) k = Ok (cell k r)).
Proof.
  intros Hdf Hr Hg _ _ Hin.
  destruct (inactive_filterable fos d (criteria_of filters) Hin Hg) as [Hf Hs].
  rewrite (get_filtered_claims_returns fos self d filters Hdf Hr Hf). cbn [fst].
  rewrite (filter_ext _ (fun _ => true) Hs), filter_true.
  split; [reflexivity|]. split.
  - cbn. unfold len. rewrite length_map. reflexivity.
  - intros r. split; [reflexivity|]. intros k Hk Hgk. apply feature_property; assumption.
Qed.

Lemma no_active_criterion_returns_all_witness :
  fst (get_filtered_claims decimal_float
         (Some [("state", Some (SStr "")); ("page", Some (SStr "2"))]) sample_store) =
  Ok (collection (map (feature sample_frame) sample)
                 (Some [("state", Some (SStr "")); ("page", Some (SStr "2"))])).
Proof.
  apply (no_active_criterion_returns_all decimal_float sample_store sample_frame
           (Some [("state", Some (SStr "")); ("page", Some (SStr "2"))])
           eq_refl ltac:(discriminate) eq_refl eq_refl eq_refl).
  intros k Hk. unfold filter_keys in Hk. simpl in Hk.
  repeat (destruct Hk as [<- | Hk]; [reflexivity|]). destruct Hk.
Defined.



Lemma active_agree (f f' : criteria) (k : string) :
  lookup k f = lookup k f' -> active f k = active f' k.
Proof. intros H. unfold active. rewrite H. reflexivity. Qed.

Lemma forallb_ext_in {A : Type} (p q : A -> bool) (l : list A) :
  (forall x, In x l -> p x = q x) -> forallb p l = forallb q l.
Proof.
  induction l as [|x t IH]; intros H; simpl; [reflexivity|].
  rewrite (H x (or_introl eq_refl)). f_equal.
  apply IH. intros y Hy. apply H. right. exact Hy.
Qed.

Lemma recognized_keys_decide (fos : string -> option pyfloat) (d : DataFrame)
  (f f' : criteria) :
  (forall k, In k filter_keys -> lookup k f = lookup k f') ->
  filterable fos d f = filterable fos d f' /\
  forall r, satisfies fos f r = satisfies fos f' r.
Proof.
  intros H.
  assert (Ha : forall k, In k filter_keys -> active f k = active f' k).
  { intros k Hk. apply active_agree. apply H. exact Hk. }
  assert (Hin : forall k, In k string_keys -> In k filter_keys).
  { intros k Hk. unfold string_keys in Hk. unfold filter_keys. simpl in *. tauto. }
  assert (Hmin : active f "claim_area_min" = active f' "claim_area_min")
    by (apply Ha; unfold filter_keys; simpl; tauto).
  assert (Hmax : active f "claim_area_max" = active f' "claim_area_max")
    by (apply Ha; unfold filter_keys; simpl; tauto).
  split.
  - unfold filterable, bound, bound_active. rewrite Hmin, Hmax.
    f_equal. f_equal. f_equal. f_equal.
    apply forallb_ext_in. intros k Hk. rewrite (Ha k (Hin k Hk)). reflexivity.
  - intros r. unfold satisfies, min_holds, max_holds, bound. rewrite Hmin, Hmax.
    f_equal. f_equal. apply forallb_ext_in. intros k Hk. unfold key_holds.
    rewrite (Ha k (Hin k Hk)). reflexivity.
Qed.

(** Two criteria mappings that agree on the eight recognized keys select
    the same features: a key the filter does not know changes nothing but
    the echo of the criteria. *)
Theorem unrecognized_keys_change_no_feature (fos : string -> option pyfloat)
  (self : store) (d : DataFrame) (f f' : criteria) :
  df self = Some d ->
  rows d <> [] ->
  filterable fos d f = true ->
  (forall k, In k filter_keys -> lookup k f = lookup k f') ->
  exists features,
    fst (get_filtered_claims fos (Some f) self) = Ok (collection features (Some f)) /\
    fst (get_filtered_claims fos (Some f') self) = Ok (collection features (Some f')).
Proof.
  intros Hdf Hr Hf Hagree.
  destruct (recognized_keys_decide fos d f f' Hagree) as [Hfe Hse].
  assert (Hf' : filterable fos d f' = true) by (rewrite <- Hfe; exact Hf).
  eexists. split.
  - rewrite (get_filtered_claims_returns fos self d (Some f) Hdf Hr Hf). reflexivity.
  - rewrite (get_filtered_claims_returns fos self d (Some f') Hdf Hr Hf').
    cbn [fst criteria_of]. rewrite (filter_ext _ _ Hse). reflexivity.
Qed.

Lemma unrecognized_keys_change_no_feature_witness :
  exists features,
    fst (get_filtered_claims decimal_float (Some [("state", Some (SStr "X"))])
           sample_store) =
    Ok (collection features (Some [("state", Some (SStr "X"))])) /\
    fst (get_filtered_claims decimal_float
           (Some [("sort", Some (SStr "asc")); ("state", Some (SStr "X"))])
           sample_store) =
    Ok (collection features
          (Some [("sort", Some (SStr "asc")); ("state", Some (SStr "X"))])).
Proof.
  apply (unrecognized_keys_change_no_feature decimal_float sample_store sample_frame
           [("state", Some (SStr "X"))]
           [("sort", Some (SStr "asc")); ("state", Some (SStr "X"))]
           eq_refl ltac:(discriminate) eq_refl).
  intros k Hk. unfold filter_keys in Hk. simpl in Hk.
  repeat (destruct Hk as [<- | Hk]; [reflexivity|]). destruct Hk.
Defined.

(** An active string key whose column the table does not have: the filter
    raises [KeyError] on that key (the columns of the other active string
    keys being there). *)
Theorem missing_column_raises_key_error (fos : string -> option pyfloat)
  (self : store) (d : DataFrame) (filters : option criteria) (k : string) (v : scalar) :
  df self = Some d ->
  rows d <> [] ->
  In k string_keys ->
  active (criteria_of filters) k = Some v ->
  has_column d k = false ->
  (forall k', In k' string_keys -> k' <> k ->
              match active (criteria_of filters) k' with
              | Some _ => has_column d k'
              | None => true
              end = true) ->
  get_filtered_claims fos filters self = (Raise (KeyError k), self).
Proof.
  intros Hdf Hr Hk Ha Hcol Hother.
  destruct (has_data self d Hdf Hr) as [Hnd Hfr].
  unfold get_filtered_claims, reads. rewrite Hnd, Hfr.
  destruct filters as [[|kv f0]|]; try discriminate.
  cbn [criteria_of] in *. set (f := kv :: f0) in *.
  destruct d as [cols rs]. unfold apply_filters. fold f.
  unfold string_keys in Hk. simpl in Hk.
  repeat (destruct Hk as [<- | Hk];
          [repeat (rewrite where_eq_rows
                     by (apply Hother; [unfold string_keys; simpl; tauto|discriminate]);
                   cbn [bind]);
           unfold where_eq at 1; rewrite Ha; unfold col;
           change (has_column (mkDataFrame cols ?x) ?c) with (has_column (mkDataFrame cols rs) c);
           rewrite Hcol; reflexivity|]).
  destruct Hk.
Qed.

Lemma missing_column_raises_key_error_witness :
  get_filtered_claims decimal_float (Some [("village", Some (SStr "V1"))]) bare_store =
  (Raise (KeyError "village"), bare_store).
Proof.
  apply (missing_column_raises_key_error decimal_float bare_store
           (DataFrame_of bare_claims)
           (Some [("village", Some (SStr "V1"))]) "village" (SStr "V1")
           eq_refl ltac:(discriminate)).
  - unfold string_keys. simpl. tauto.
  - reflexivity.
  - reflexivity.
  - intros k' Hk' Hne. unfold string_keys in Hk'. simpl in Hk'.
    repeat (destruct Hk' as [<- | Hk']; [try reflexivity; congruence|]). destruct Hk'.
Defined.

(** ** The criteria of a request *)

(** The criteria [get_claims] and [export_claims] build from a request
    hold exactly the recognized parameters that are present and not empty,
    as strings; every key they hold is active. *)
Theorem request_criteria_are_the_given_parameters (args : request_args)
  (k : string) (v : option scalar) :
  (lookup k (filters_of_args args) = Some v <->
   In k filter_keys /\
   exists s, lookup k args = Some s /\ s <> "" /\ v = Some (SStr s)) /\
  (lookup k (filters_of_args args) = Some v ->
   active (filters_of_args args) k = v /\ truthy v = true).
Proof.
  assert (Hl : lookup k (filters_of_args args) =
               if existsb (String.eqb k) filter_keys
                  && truthy (option_map SStr (lookup k args))
               then Some (option_map SStr (lookup k args)) else None).
  { unfold filters_of_args.
    apply (lookup_filter_keys (fun kv => truthy (snd kv))
             (fun k => option_map SStr (lookup k args))). }
  assert (Hiff : lookup k (filters_of_args args) = Some v <->
                 In k filter_keys /\
                 exists s, lookup k args = Some s /\ s <> "" /\ v = Some (SStr s)).
  { rewrite Hl. split.
    - destruct (existsb (String.eqb k) filter_keys) eqn:He; [|discriminate].
      apply existsb_exists in He. destruct He as [k' [Hin Heq]].
      apply String.eqb_eq in Heq. subst k'.
      destruct (lookup k args) as [s|]; simpl; [|discriminate].
      destruct (String.eqb_spec s ""); simpl; [discriminate|].
      intros H. injection H as <-. split; [exact Hin|]. exists s. auto.
    - intros [Hin [s [Hs [Hne ->]]]].
      assert (He : existsb (String.eqb k) filter_keys = true).
      { apply existsb_exists. exists k. split; [exact Hin|apply String.eqb_refl]. }
      rewrite He, Hs. simpl. destruct (String.eqb_spec s ""); [contradiction|].
      reflexivity. }
  split; [exact Hiff|].
  intros H. destruct (proj1 Hiff H) as [_ [s [_ [Hne ->]]]].
  unfold active. rewrite H. simpl.
  destruct (String.eqb_spec s ""); [contradiction|]. split; reflexivity.
Qed.

(** ** Lookup of one claim *)

Lemma cell_eq_string (s : string) (c : pyval) :
  cell_eq (SStr s) c = true -> c = PStr s.
Proof.
  unfold cell_eq. destruct c; simpl; try discriminate.
  intros H. apply String.eqb_eq in H. congruence.
Qed.

(** The lookup of an identifier no record has: [None] from the manager,
    status 404 from the route. *)
Theorem unknown_claim_is_not_found (self : store) (d : DataFrame) (claim_id : string) :
  df self = Some d ->
  rows d <> [] ->
  has_column d "claim_id" = true ->
  (forall r, In r (rows d) -> cell "claim_id" r <> PStr claim_id) ->
  get_claim_details (SStr claim_id) self = (Ok PNone, self) /\
  Routes.get_claim_details claim_id self =
  ((PDict [(PStr "error", PStr "Claim not found")], 404), self).
Proof.
  intros Hdf Hr Hc Hno.
  destruct (has_data self d Hdf Hr) as [Hnd Hfr].
  assert (Hm : get_claim_details (SStr claim_id) self = (Ok PNone, self)).
  { unfold get_claim_details, reads. rewrite Hnd, Hfr. unfold col. rewrite Hc.
    cbn [bind]. destruct d as [cols rs]. cbn [rows] in *.
    rewrite mask_column. cbn [rows].
    rewrite (filter_ext_in _ (fun _ => false)), filter_false; [reflexivity|].
    intros r Hin. destruct (cell_eq (SStr claim_id) (cell "claim_id" r)) eqn:E;
      [|reflexivity].
    apply cell_eq_string in E. elim (Hno r Hin E). }
  split; [exact Hm|]. unfold Routes.get_claim_details. rewrite Hm. reflexivity.
Qed.

Lemma unknown_claim_is_not_found_witness :
  Routes.get_claim_details "Z" sample_store =
  ((PDict [(PStr "error", PStr "Claim not found")], 404), sample_store).
Proof.
  apply (unknown_claim_is_not_found sample_store sample_frame "Z" eq_refl
           ltac:(discriminate) eq_refl).
  intros r Hin. unfold sample_frame, sample in Hin. simpl in Hin.
  repeat (destruct Hin as [<- | Hin]; [discriminate|]). destruct Hin.
Defined.

(** The lookup of an identifier some record has, on a table that the
    timeline has not rewritten (it has no [submission_year] column, so that
    no date in it is NaT): the first such record, as a mapping from every
    column of the table, the geometry included, to the record's value,
    with status 200; its [claim_id] is the one asked for. *)
Theorem known_claim_is_returned (self : store) (cols : list string)
  (rs1 rs2 : list row) (r : row) (claim_id : string) :
  df self = Some (mkDataFrame cols (rs1 ++ r :: rs2)) ->
  existsb (String.eqb "claim_id") cols = true ->
  existsb (String.eqb "submission_year") cols = false ->
  (forall r', In r' rs1 -> cell "claim_id" r' <> PStr claim_id) ->
  cell "claim_id" r = PStr claim_id ->
  exists details,
    Routes.get_claim_details claim_id self = ((details, 200), self) /\
    getitem details "claim_id" = Ok (PStr claim_id) /\
    forall k, existsb (String.eqb k) cols = true -> getitem details k = Ok (cell k r).
Proof.
  intros Hdf Hc _ Hno Hr.
  assert (Hne : rows (mkDataFrame cols (rs1 ++ r :: rs2)) <> [])
    by (destruct rs1; discriminate).
  destruct (has_data self _ Hdf Hne) as [Hnd Hfr].
  exists (PDict (map (fun k => (PStr k, cell k r)) cols)).
  assert (Hget : forall k, existsb (String.eqb k) cols = true ->
                           getitem (PDict (map (fun k => (PStr k, cell k r)) cols)) k =
                           Ok (cell k r)).
  { intros k Hk. unfold getitem.
    rewrite (dict_get_columns (fun c => cell c r) cols k Hk). reflexivity. }
  split; [|split].
  - unfold Routes.get_claim_details, get_claim_details, reads. rewrite Hnd, Hfr.
    unfold col, has_column. cbn [columns rows]. rewrite Hc. cbn [bind].
    rewrite mask_column. cbn [rows columns]. rewrite filter_app.
    rewrite (filter_ext_in _ (fun _ => false) rs1), filter_false.
    + cbn [filter app]. rewrite Hr.
      assert (He : cell_eq (SStr claim_id) (PStr claim_id) = true)
        by (unfold cell_eq; simpl; apply String.eqb_refl).
      rewrite He. reflexivity.
    + intros r' Hin. destruct (cell_eq (SStr claim_id) (cell "claim_id" r')) eqn:E;
        [|reflexivity].
      apply cell_eq_string in E. elim (Hno r' Hin E).
  - rewrite (Hget "claim_id" Hc). rewrite Hr. reflexivity.
  - exact Hget.
Qed.

Lemma known_claim_is_returned_witness :
  exists details,
    Routes.get_claim_details "B" sample_store = ((details, 200), sample_store) /\
    getitem details "claim_id" = Ok (PStr "B") /\
    getitem details "geometry" = Ok (point 1 2).
Proof.
  destruct (known_claim_is_returned sample_store (columns sample_frame)
              [claim_A] [claim_C] claim_B "B" eq_refl eq_refl eq_refl)
    as [details [H1 [H2 H3]]].
  - intros r' [<- | []]. discriminate.
  - reflexivity.
  - exists details. split; [exact H1|]. split; [exact H2|].
    apply (H3 "geometry"). reflexivity.
Defined.

(** ** Export *)

Lemma dict_get_set_same (k : string) (x : pyval) (kv : list (pyval * pyval)) :
  dict_get k (dict_set k x kv) = Some x.
Proof.
  induction kv as [|[k' v'] t IH]; simpl.
  - rewrite String.eqb_refl. reflexivity.
  - destruct k'; simpl; try exact IH.
    destruct (String.eqb s k) eqn:E; simpl; rewrite E; [reflexivity|exact IH].
Qed.

Lemma dict_get_set_other (k k' : string) (x : pyval) (kv : list (pyval * pyval)) :
  String.eqb k' k = false ->
  dict_get k (dict_set k' x kv) = dict_get k kv.
Proof.
  intros Hne. induction kv as [|[c v'] t IH]; simpl.
  - rewrite Hne. reflexivity.
  - destruct c; simpl; try exact IH.
    destruct (String.eqb s k') eqn:E; simpl.
    + apply String.eqb_eq in E. subst s. rewrite Hne. reflexivity.
    + destruct (String.eqb s k); [reflexivity|exact IH].
Qed.

(** What the filter returns is always a collection with its list of
    features. *)
Lemma filtered_claims_shape (fos : string -> option pyfloat)
  (filters : option criteria) (self : store) (data : pyval) :
  fst (get_filtered_claims fos filters self) = Ok data ->
  exists kv features,
    data = PDict kv /\
    dict_get "features" kv = Some (PList features) /\
    dict_get "type" kv = Some (PStr "FeatureCollection").
Proof.
  unfold get_filtered_claims, reads. cbn [fst].
  destruct (no_data self).
  - intros H. injection H as <-. do 2 eexists. repeat split.
  - destruct (apply_filters fos filters (frame self)) as [fd|e]; [|discriminate].
    cbn [bind]. destruct (mapM (feature_of fd) (rows fd)) as [fl|e]; [|discriminate].
    cbn [bind]. intros H. injection H as <-. do 2 eexists. repeat split.
Qed.

(** When the listing of a request succeeds, its export succeeds too and
    is the listing with one more entry, [export_info]: the time, the
    criteria of the request and the number of features.  The type, the
    features and the properties are those of the listing. *)
Theorem export_is_listing_with_info (fos : string -> option pyfloat) (now : string)
  (args : request_args) (fra_manager : store) (data : pyval) :
  get_claims fos args fra_manager = ((data, 200), fra_manager) ->
  exists features out,
    getitem data "features" = Ok (PList features) /\
    Routes.export_claims fos now args fra_manager = ((out, 200), fra_manager) /\
    getitem out "features" = Ok (PList features) /\
    getitem out "type" = getitem data "type" /\
    getitem out "properties" = getitem data "properties" /\
    getitem out "export_info" =
    Ok (PDict [(PStr "exported_at", PStr now);
               (PStr "filters_applied", filters_or_empty (Some (filters_of_args args)));
               (PStr "total_claims", py_int (List.length features))]).
Proof.
  unfold get_claims, Routes.export_claims. cbv zeta.
  destruct (get_filtered_claims fos (Some (filters_of_args args)) fra_manager)
    as [[d|e] m] eqn:Hg; [|discriminate].
  intros H. injection H as -> ->.
  assert (Hd : fst (get_filtered_claims fos (Some (filters_of_args args)) fra_manager)
               = Ok data) by (rewrite Hg; reflexivity).
  destruct (filtered_claims_shape fos _ _ _ Hd) as [kv [features [-> [Hf Ht]]]].
  exists features. eexists.
  unfold getitem at 1 2. rewrite Hf. cbn [bind py_len setitem].
  split; [reflexivity|]. split; [reflexivity|].
  unfold getitem.
  rewrite !dict_get_set_other by reflexivity. rewrite dict_get_set_same, Hf.
  repeat split.
Qed.

Lemma export_is_listing_with_info_witness :
  exists features out,
    getitem (collection [feature sample_frame claim_C] (Some [("state", Some (SStr "Y"))]))
            "features" = Ok (PList features) /\
    Routes.export_claims decimal_float "2024-05-01T10:00:00" [("state", "Y")] sample_store =
    ((out, 200), sample_store) /\
    getitem out "features" = Ok (PList features) /\
    getitem out "export_info" =
    Ok (PDict [(PStr "exported_at", PStr "2024-05-01T10:00:00");
               (PStr "filters_applied", PDict [(PStr "state", PStr "Y")]);
               (PStr "total_claims", py_int (List.length features))]).
Proof.
  destruct (export_is_listing_with_info decimal_float "2024-05-01T10:00:00"
              [("state", "Y")] sample_store
              (collection [feature sample_frame claim_C]
                          (Some [("state", Some (SStr "Y"))]))
              eq_refl)
    as [features [out [H1 [H2 [H3 [_ [_ H4]]]]]]].
  exists features, out. repeat split; assumption.
Defined.

(** ** The statistics blob *)

Fixpoint json_is_serializable (v : pyval) : is_json v = true -> serializable v = true.
Proof.
  destruct v as [|b|q|s|t|l|kv]; intros H; try reflexivity; try discriminate.
  - simpl in *. induction l as [|x l' IHl]; [reflexivity|].
    simpl in *. apply andb_prop in H. destruct H as [Hx Hl].
    rewrite (json_is_serializable x Hx). exact (IHl Hl).
  - simpl in *. induction kv as [|[k w] kv' IHkv]; [reflexivity|].
    simpl in *. apply andb_prop in H. destruct H as [Hx Hl].
    destruct k; try discriminate.
    rewrite (json_is_serializable w Hx). exact (IHkv Hl).
Qed.

(** The blob a constructed manager holds is what [json.load] gave for the
    statistics file, or [{}] after a failed load; [json.dumps] accepts
    both, so [get_analytics] returns the blob as it is and never computes
    its simplified summary. *)
Theorem analytics_are_returned_verbatim (fs : filesystem) (geojson analytics : string) :
  (forall path v, fs path = Ok v -> is_json v = true) ->
  get_analytics (fst (init fs geojson analytics)) =
  (Ok (analytics_data (fst (init fs geojson analytics))), false,
   fst (init fs geojson analytics)) /\
  Routes.get_analytics (fst (init fs geojson analytics)) =
  ((analytics_data (fst (init fs geojson analytics)), 200),
   fst (init fs geojson analytics)) /\
  (analytics_data (fst (init fs geojson analytics)) = PDict [] \/
   fs analytics = Ok (analytics_data (fst (init fs geojson analytics)))).
Proof.
  intros Hjson.
  assert (Hblob : analytics_data (fst (init fs geojson analytics)) = PDict [] \/
                  fs analytics = Ok (analytics_data (fst (init fs geojson analytics)))).
  { unfold init, load_data, load_try. cbn [geojson_file analytics_file].
    destruct (fs geojson) as [c|e]; cbn [bind]; [|left; reflexivity].
    destruct (fs analytics) as [a|e]; cbn [bind]; [|left; reflexivity].
    destruct (features_of c) as [f|e]; cbn [bind]; [right|left]; reflexivity. }
  assert (Hs : serializable (analytics_data (fst (init fs geojson analytics))) = true).
  { destruct Hblob as [-> | Hb]; [reflexivity|].
    apply json_is_serializable. apply (Hjson analytics). exact Hb. }
  assert (Hm : get_analytics (fst (init fs geojson analytics)) =
               (Ok (analytics_data (fst (init fs geojson analytics))), false,
                fst (init fs geojson analytics))).
  { unfold get_analytics. rewrite Hs. reflexivity. }
  split; [exact Hm|]. split; [|exact Hblob].
  unfold Routes.get_analytics, Routes.answer. rewrite Hm. reflexivity.
Qed.

Lemma analytics_are_returned_verbatim_witness :
  Routes.get_analytics
    (fst (init good_files "output/fra_claims.geojson" "output/fra_analytics.json")) =
  ((sample_analytics, 200),
   fst (init good_files "output/fra_claims.geojson" "output/fra_analytics.json")).
Proof.
  apply (analytics_are_returned_verbatim good_files "output/fra_claims.geojson"
           "output/fra_analytics.json").
  intros path v. unfold good_files.
  destruct (String.eqb path "output/fra_claims.geojson").
  - intros H. injection H as <-. reflexivity.
  - destruct (String.eqb path "output/fra_analytics.json"); [|discriminate].
    intros H. injection H as <-. reflexivity.
Defined.

(** ** A manager without data *)

(** When the collection file cannot be read, the manager that results
    answers every route with its empty form: an empty collection, empty
    mappings, "not found" for a lookup, and an export of no feature. *)
Theorem manager_without_data_answers_empty (fs : filesystem)
  (geojson analytics : string) (e : exn) (fos : string -> option pyfloat)
  (to_datetime_scalar : scalar -> result (option Timestamp)) (current_year : Z)
  (now claim_id : string) (args : request_args) :
  fs geojson = Raise e ->
  get_claims fos args (fst (init fs geojson analytics)) =
  ((empty_collection, 200), fst (init fs geojson analytics)) /\
  Routes.get_analytics (fst (init fs geojson analytics)) =
  ((PDict [], 200), fst (init fs geojson analytics)) /\
  Routes.get_claim_details claim_id (fst (init fs geojson analytics)) =
  ((PDict [(PStr "error", PStr "Claim not found")], 404),
   fst (init fs geojson analytics)) /\
  Routes.get_state_summary (fst (init fs geojson analytics)) =
  ((PDict [], 200), fst (init fs geojson analytics)) /\
  Routes.get_tribal_analysis (fst (init fs geojson analytics)) =
  ((PDict [], 200), fst (init fs geojson analytics)) /\
  Routes.get_timeline_analysis to_datetime_scalar current_year
    (fst (init fs geojson analytics)) =
  ((PDict [], 200), fst (init fs geojson analytics)) /\
  Routes.get_performance_metrics (fst (init fs geojson analytics)) =
  ((PDict [], 200), fst (init fs geojson analytics)) /\
  get_filter_options (fst (init fs geojson analytics)) =
  ((PDict [], 200), fst (init fs geojson analytics)) /\
  Routes.export_claims fos now args (fst (init fs geojson analytics)) =
  ((PDict [(PStr "type", PStr "FeatureCollection");
           (PStr "features", PList []);
           (PStr "export_info",
            PDict [(PStr "exported_at", PStr now);
                   (PStr "filters_applied", filters_or_empty (Some (filters_of_args args)));
                   (PStr "total_claims", py_int 0)])], 200),
   fst (init fs geojson analytics)).
Proof.
  intros H.
  assert (Hm : fst (init fs geojson analytics) =
               mkStore geojson analytics empty_collection (PDict []) (Some empty_frame)).
  { unfold init, load_data, load_try. cbn [geojson_file]. rewrite H. reflexivity. }
  rewrite Hm. repeat split.
Qed.

Lemma manager_without_data_answers_empty_witness :
  Routes.get_state_summary (fst (init (fun _ => Raise (OSError "No such file or directory"))
                                      "output/fra_claims.geojson"
                                      "output/fra_analytics.json")) =
  ((PDict [], 200),
   fst (init (fun _ => Raise (OSError "No such file or directory"))
             "output/fra_claims.geojson" "output/fra_analytics.json")).
Proof.
  apply (manager_without_data_answers_empty
           (fun _ => Raise (OSError "No such file or directory"))
           "output/fra_claims.geojson" "output/fra_analytics.json"
           (OSError "No such file or directory") decimal_float iso_datetime 2024
           "" "" [] eq_refl).
Defined.

(** ** From the file to the listing *)








(** ** The timeline, asked twice *)

Lemma lookup_row_set_same (c : string) (v : pyval) (r : row) :
  lookup c (row_set c v r) = Some v.
Proof.
  induction r as [|[k w] t IH]; simpl.
  - rewrite String.eqb_refl. reflexivity.
  - destruct (String.eqb k c) eqn:E; simpl; rewrite E; [reflexivity|exact IH].
Qed.

Lemma lookup_row_set_other (c c' : string) (v : pyval) (r : row) :
  String.eqb c' c = false -> lookup c (row_set c' v r) = lookup c r.
Proof.
  intros Hne. induction r as [|[k w] t IH]; simpl.
  - rewrite Hne. reflexivity.
  - destruct (String.eqb k c') eqn:E; simpl.
    + apply String.eqb_eq in E. subst k. rewrite Hne. reflexivity.
    + destruct (String.eqb k c); [reflexivity|exact IH].
Qed.

(** Setting a cell to the value it has changes nothing. *)
Lemma row_set_same_value (c : string) (v : pyval) (r : row) :
  lookup c r = Some v -> row_set c v r = r.
Proof.
  induction r as [|[k w] t IH]; simpl; [discriminate|].
  destruct (String.eqb k c).
  - intros H. injection H as ->. reflexivity.
  - intros H. rewrite (IH H). reflexivity.
Qed.

Lemma with_column_present (cols : list string) (c : string) :
  existsb (String.eqb c) cols = true -> with_column cols c = cols.
Proof. intros H. unfold with_column. rewrite H. reflexivity. Qed.

Lemma timeline_columns_idempotent (cols : list string) :
  timeline_columns (timeline_columns cols) = timeline_columns cols.
Proof.
  unfold timeline_columns at 1.
  rewrite (with_column_present (timeline_columns cols) "submission_date").
  2:{ unfold timeline_columns. do 2 apply has_column_with_column.
      apply has_column_added. }
  rewrite (with_column_present (timeline_columns cols) "submission_year").
  2:{ unfold timeline_columns. apply has_column_with_column. apply has_column_added. }
  apply with_column_present. unfold timeline_columns. apply has_column_added.
Qed.

Section TimelineTwice.

Variable parse : scalar -> result (option Timestamp).

(** A converted date converts to itself. *)
Lemma to_datetime_converted (v : pyval) :
  to_datetime parse (unwrap (to_datetime parse v)) = Ok (unwrap (to_datetime parse v)).
Proof.
  destruct v as [|b|q|s|t|l|kv]; simpl; try reflexivity.
  - destruct (parse (SBool b)) as [[t|]|e]; reflexivity.
  - destruct (parse (SNum q)) as [[t|]|e]; reflexivity.
  - destruct (parse (SStr s)) as [[t|]|e]; reflexivity.
Qed.

Lemma dated_date (r : row) :
  cell "submission_date" (dated parse r) =
  unwrap (to_datetime parse (cell "submission_date" r)).
Proof.
  unfold dated. rewrite !cell_row_set_other by reflexivity.
  apply cell_row_set_same.
Qed.

Lemma dated_idempotent (r : row) : dated parse (dated parse r) = dated parse r.
Proof.
  set (w := unwrap (to_datetime parse (cell "submission_date" r))).
  assert (Hd : lookup "submission_date" (dated parse r) = Some w).
  { unfold dated. rewrite !lookup_row_set_other by reflexivity.
    apply lookup_row_set_same. }
  assert (Hy : lookup "submission_year" (dated parse r) = Some (field_value ts_year w)).
  { unfold dated. rewrite lookup_row_set_other by reflexivity.
    rewrite lookup_row_set_same, cell_row_set_same. reflexivity. }
  assert (Hm : lookup "submission_month" (dated parse r) = Some (field_value ts_month w)).
  { unfold dated. rewrite lookup_row_set_same.
    rewrite cell_row_set_other by reflexivity. rewrite cell_row_set_same. reflexivity. }
  assert (Hc : cell "submission_date" (dated parse r) = w) by apply dated_date.
  assert (H1 : row_set "submission_date"
                 (unwrap (to_datetime parse (cell "submission_date" (dated parse r))))
                 (dated parse r) = dated parse r).
  { rewrite Hc. unfold w at 1. rewrite to_datetime_converted. cbn [unwrap].
    apply row_set_same_value. exact Hd. }
  assert (H2 : row_set "submission_year"
                 (field_value ts_year (cell "submission_date" (dated parse r)))
                 (dated parse r) = dated parse r).
  { rewrite Hc. apply row_set_same_value. exact Hy. }
  assert (H3 : row_set "submission_month"
                 (field_value ts_month (cell "submission_date" (dated parse r)))
                 (dated parse r) = dated parse r).
  { rewrite Hc. apply row_set_same_value. exact Hm. }
  unfold dated at 1. cbv zeta. rewrite H1, H2. exact H3.
Qed.

(** The timeline asked a second time returns what it returned the first
    time and leaves the table as the first call left it: the columns it
    has written are written once. *)
Theorem timeline_second_call_changes_nothing (current_year : Z) (self : store) :
  get_timeline_analysis parse current_year
    (snd (get_timeline_analysis parse current_year self)) =
  get_timeline_analysis parse current_year self.
Proof.
  destruct (no_data self) eqn:Hnd.
  - unfold get_timeline_analysis at 2 3. rewrite Hnd. cbn [snd].
    unfold get_timeline_analysis. rewrite Hnd. reflexivity.
  - assert (Hdf : exists cols rs, df self = Some (mkDataFrame cols rs) /\ rs <> []).
    { unfold no_data, len in Hnd. destruct (df self) as [[cols rs]|]; [|discriminate].
      exists cols, rs. split; [reflexivity|]. cbn [rows] in Hnd.
      destruct rs; [discriminate|discriminate]. }
    destruct Hdf as [cols [rs [Hdf Hne]]].
    rewrite (timeline_normal parse current_year self cols rs Hdf Hne).
    destruct (col (mkDataFrame cols rs) "submission_date") as [c|e] eqn:Hc.
    + destruct (mapM (to_datetime parse) c) as [dates|e] eqn:Hd.
      * cbn [snd].
        assert (Hne' : map (dated parse) rs <> []) by (destruct rs; [congruence|discriminate]).
        rewrite (timeline_normal parse current_year
                   (with_table self (mkDataFrame (timeline_columns cols)
                                                 (map (dated parse) rs)))
                   (timeline_columns cols) (map (dated parse) rs) eq_refl Hne').
        unfold col at 1, has_column. cbn [columns rows].
        assert (Hhas : existsb (String.eqb "submission_date") (timeline_columns cols) = true).
        { unfold timeline_columns. do 2 apply has_column_with_column.
          apply has_column_added. }
        rewrite Hhas.
        rewrite (mapM_ok_map (to_datetime parse) (fun v => v)).
        2:{ intros v Hv. rewrite map_map in Hv. apply in_map_iff in Hv.
            destruct Hv as [r [<- _]]. rewrite dated_date.
            apply to_datetime_converted. }
        rewrite timeline_columns_idempotent, map_map.
        rewrite (map_ext _ _ dated_idempotent).
        reflexivity.
      * cbn [snd]. rewrite (timeline_normal parse current_year self cols rs Hdf Hne).
        rewrite Hc, Hd. reflexivity.
    + cbn [snd]. rewrite (timeline_normal parse current_year self cols rs Hdf Hne).
      rewrite Hc. reflexivity.
Qed.

End TimelineTwice.

(** ** Counts and rates *)

Lemma round_half_even_bounds (x : Q) (n : Z) :
  (0 <= x)%Q -> (x <= inject_Z n)%Q ->
  0 <= round_half_even x <= n.
Proof.
  intros H0 Hn. unfold round_half_even.
  pose proof (Qfloor_resp_le _ _ H0) as Hf0. change (0 <= Qfloor x) in Hf0.
  pose proof (Qfloor_resp_le _ _ Hn) as Hfn. rewrite Qfloor_Z in Hfn.
  assert (Hup : (1 # 2 <= x - inject_Z (Qfloor x))%Q -> Qfloor x + 1 <= n).
  { intros Hhalf.
    assert (Hlt : Qfloor x < n); [|lia].
    destruct (Z.eq_dec (Qfloor x) n) as [E|]; [|lia].
    exfalso. rewrite E in Hhalf.
    assert (Hc : (x - inject_Z n <= 0)%Q).
    { apply (Qplus_le_l _ _ (inject_Z n)). ring_simplify. exact Hn. }
    apply (Qle_not_lt _ _ (Qle_trans _ _ _ Hhalf Hc)). reflexivity. }
  destruct (Qcompare_spec (x - inject_Z (Qfloor x)) (1 # 2)) as [He|Hl|Hg].
  - destruct (Z.even (Qfloor x)); [lia|].
    split; [lia|]. apply Hup. rewrite He. apply Qle_refl.
  - lia.
  - split; [lia|]. apply Hup. apply Qlt_le_weak. exact Hg.
Qed.

Lemma round2_percentage (x : Q) :
  (0 <= x)%Q -> (x <= 100)%Q -> (0 <= round2 x)%Q /\ (round2 x <= 100)%Q.
Proof.
  intros H0 H100. unfold round2.
  assert (Ha : (0 <= x * 100)%Q).
  { apply Qmult_le_0_compat; [exact H0|discriminate]. }
  assert (Hb : (x * 100 <= inject_Z 10000)%Q).
  { apply (Qle_trans _ (100 * 100)%Q); [|discriminate].
    apply Qmult_le_compat_r; [exact H100|discriminate]. }
  destruct (round_half_even_bounds (x * 100) 10000 Ha Hb) as [Hl Hu].
  unfold Qle. simpl. split; lia.
Qed.

(** A part of a whole, as a percentage. *)
Lemma percentage_bounds (part whole : nat) :
  (part <= whole)%nat -> (0 < whole)%nat -> is_percentage (percentage part whole).
Proof.
  intros Hle Hpos. unfold percentage, is_percentage. eexists. split; [reflexivity|].
  apply round2_percentage.
  - apply Qmult_le_0_compat; [|discriminate].
    apply Qle_shift_div_l.
    + rewrite <- (Zlt_Qlt 0). lia.
    + rewrite Qmult_0_l. rewrite <- (Zle_Qle 0). lia.
  - setoid_replace (100 : Q) with (1 * 100)%Q at 2 by reflexivity.
    apply Qmult_le_compat_r; [|discriminate].
    apply Qle_shift_div_r.
    + rewrite <- (Zlt_Qlt 0). lia.
    + rewrite Qmult_1_l. rewrite <- Zle_Qle. lia.
Qed.

Lemma bool_mask_of_flags (c : list pyval) :
  forallb is_flag c = true ->
  bool_mask c = Ok (map (fun v => match v with PBool b => b | _ => false end) c).
Proof.
  intros H. unfold bool_mask. apply mapM_ok_map. intros v Hv.
  pose proof (proj1 (forallb_forall _ _) H v Hv) as Hf.
  destruct v; try discriminate. reflexivity.
Qed.

Lemma flag_rate_value (cols : list string) (rs : list row) (k : string) :
  flag_column (mkDataFrame cols rs) k = true ->
  rs <> [] ->
  flag_rate (mkDataFrame cols rs) k (List.length rs) =
  Ok (percentage (count (flag_set k) rs) (List.length rs)).
Proof.
  unfold flag_column, flag_rate, col. cbn [rows]. intros H Hne.
  apply andb_prop in H. destruct H as [Hc Hf].
  assert (Hpos : Nat.ltb 0 (List.length rs) = true)
    by (destruct rs; [congruence|reflexivity]).
  rewrite Hpos, Hc. cbn [bind rows].
  rewrite (bool_mask_of_flags _ (forallb_map (cell k) is_flag rs Hf)). cbn [bind].
  rewrite mask_column. reflexivity.
Qed.

(** The metrics on a table that has what they read. *)
Lemma performance_metrics_value (self : store) (cols : list string) (rs : list row) :
  df self = Some (mkDataFrame cols rs) ->
  rs <> [] ->
  metrics_ready (mkDataFrame cols rs) = true ->
  exists total_area average,
    fst (get_performance_metrics self) =
    Ok (PDict [(PStr "total_claims", py_int (List.length rs));
               (PStr "approved_claims", py_int (count (with_status "approved") rs));
               (PStr "pending_claims", py_int (count pending rs));
               (PStr "rejected_claims", py_int (count (with_status "rejected") rs));
               (PStr "approval_rate",
                percentage (count (with_status "approved") rs) (List.length rs));
               (PStr "pending_rate", percentage (count pending rs) (List.length rs));
               (PStr "total_area_ha", total_area);
               (PStr "average_claim_size_ha", average);
               (PStr "field_verification_rate",
                percentage (count (flag_set "field_verification_done") rs)
                           (List.length rs));
               (PStr "gps_verification_rate",
                percentage (count (flag_set "gps_coordinates_verified") rs)
                           (List.length rs))]).
Proof.
  intros Hdf Hne Hm.
  destruct (has_data self _ Hdf Hne) as [Hnd Hfr].
  unfold metrics_ready in Hm.
  apply andb_prop in Hm. destruct Hm as [Hm Hgps].
  apply andb_prop in Hm. destruct Hm as [Hm Hfield].
  apply andb_prop in Hm. destruct Hm as [Hm Hareas].
  apply andb_prop in Hm. destruct Hm as [Hstatus Harea].
  cbn [rows] in Hareas.
  unfold get_performance_metrics, reads. rewrite Hnd, Hfr. cbn [fst].
  unfold col at 1. rewrite Hstatus. cbn [bind rows].
  unfold col at 1. rewrite Harea. cbn [bind rows].
  destruct (series_sum_numbers _ (area_column _ Hareas)) as [s [Hs _]].
  rewrite Hs. cbn [bind py_round2].
  rewrite (series_mean_numbers _ (area_column _ Hareas)). cbn [bind].
  assert (Hmean : exists average,
             py_round2 (mean_of (numbers (map (cell "claim_area_ha") rs))) = Ok average).
  { destruct (numbers (map (cell "claim_area_ha") rs)); eexists; reflexivity. }
  destruct Hmean as [average Hav]. rewrite Hav. cbn [bind].
  unfold len. cbn [rows].
  rewrite (flag_rate_value cols rs "field_verification_done" Hfield Hne).
  rewrite (flag_rate_value cols rs "gps_coordinates_verified" Hgps Hne).
  cbn [bind]. rewrite !mask_column. cbn [rows].
  assert (Hpos : Nat.ltb 0 (List.length rs) = true)
    by (destruct rs; [congruence|reflexivity]).
  rewrite Hpos. exists (PNum (round2 s)), average. reflexivity.
Qed.

Lemma count_le (p : row -> bool) (rs : list row) : (count p rs <= List.length rs)%nat.
Proof. apply filter_length_le. Qed.

(** A status is approved, pending or rejected, and one of them at most. *)
Lemma status_kinds_exclusive (c : pyval) :
  (if cell_eq (SStr "approved") c then 1 else 0)
  + (if isin pending_statuses c then 1 else 0)
  + (if cell_eq (SStr "rejected") c then 1 else 0) <= 1.
Proof.
  destruct c as [|b|q|s|t|l|kv]; try (cbn; lia).
  unfold isin, pending_statuses, cell_eq. cbn [scalar_of_py scalar_eqb existsb].
  destruct (String.eqb_spec s "approved") as [->|]; [cbn; lia|].
  destruct (String.eqb_spec s "rejected") as [->|]; [cbn; lia|].
  destruct (String.eqb s "submitted"), (String.eqb s "under_review"),
    (String.eqb s "field_verification"); cbn; lia.
Qed.

Lemma status_counts_le (rs : list row) :
  (count (with_status "approved") rs + count pending rs
   + count (with_status "rejected") rs <= List.length rs)%nat.
Proof.
  unfold count, with_status, pending.
  induction rs as [|r t IH]; [simpl; lia|].
  cbn [filter].
  pose proof (status_kinds_exclusive (cell "status" r)) as H.
  destruct (cell_eq (SStr "approved") (cell "status" r)),
    (isin pending_statuses (cell "status" r)),
    (cell_eq (SStr "rejected") (cell "status" r));
    cbn [List.length]; cbn in H; lia.
Qed.

(** The counts of the metrics: [total_claims] is the number of records,
    and the approved, the pending and the rejected claims are distinct
    records: together they are at most [total_claims]. *)
Theorem metrics_count_distinct_records (self : store) (cols : list string)
  (rs : list row) :
  df self = Some (mkDataFrame cols rs) ->
  rs <> [] ->
  metrics_ready (mkDataFrame cols rs) = true ->
  exists res,
    fst (get_performance_metrics self) = Ok res /\
    getitem res "total_claims" = Ok (py_int (List.length rs)) /\
    getitem res "approved_claims" = Ok (py_int (count (with_status "approved") rs)) /\
    getitem res "pending_claims" = Ok (py_int (count pending rs)) /\
    getitem res "rejected_claims" = Ok (py_int (count (with_status "rejected") rs)) /\
    (count (with_status "approved") rs + count pending rs
     + count (with_status "rejected") rs <= List.length rs)%nat.
Proof.
  intros Hdf Hne Hm.
  destruct (performance_metrics_value self cols rs Hdf Hne Hm) as [ta [av Hres]].
  eexists. split; [exact Hres|]. repeat split. apply status_counts_le.
Qed.

Lemma metrics_count_distinct_records_witness :
  exists res,
    fst (get_performance_metrics sample_store) = Ok res /\
    getitem res "total_claims" = Ok (py_int 3) /\
    getitem res "approved_claims" = Ok (py_int 2).
Proof.
  destruct (metrics_count_distinct_records sample_store (columns sample_frame) sample
              eq_refl ltac:(discriminate) eq_refl)
    as [res [H1 [H2 [H3 _]]]].
  exists res. split; [exact H1|]. split; [exact H2|exact H3].
Defined.

(** The four rates of the metrics are percentages: numbers from 0 to
    100. *)
Theorem metrics_rates_are_percentages (self : store) (cols : list string)
  (rs : list row) :
  df self = Some (mkDataFrame cols rs) ->
  rs <> [] ->
  metrics_ready (mkDataFrame cols rs) = true ->
  exists res,
    fst (get_performance_metrics self) = Ok res /\
    forall k,
      In k ["approval_rate"; "pending_rate"; "field_verification_rate";
            "gps_verification_rate"] ->
      exists v, getitem res k = Ok v /\ is_percentage v.
Proof.
  intros Hdf Hne Hm.
  destruct (performance_metrics_value self cols rs Hdf Hne Hm) as [ta [av Hres]].
  assert (Hpos : (0 < List.length rs)%nat) by (destruct rs; [congruence|simpl; lia]).
  eexists. split; [exact Hres|].
  intros k [<- | [<- | [<- | [<- | []]]]]; eexists; (split; [reflexivity|]);
    apply percentage_bounds; try exact Hpos; apply count_le.
Qed.

Lemma metrics_rates_are_percentages_witness :
  exists res,
    fst (get_performance_metrics sample_store) = Ok res /\
    exists v, getitem res "approval_rate" = Ok v /\ is_percentage v.
Proof.
  destruct (metrics_rates_are_percentages sample_store (columns sample_frame) sample
              eq_refl ltac:(discriminate) eq_refl)
    as [res [H1 H2]].
  exists res. split; [exact H1|]. apply H2. left. reflexivity.
Defined.

(** ** A field that is missing in some records *)

Lemma unique_In_exact {A : Type} (eqb : A -> A -> bool) (l : list A) (x : A) :
  (forall y, eqb y x = true -> y = x) -> In x l -> In x (unique eqb l).
Proof.
  intros Hx. induction l as [|y t IH]; simpl; [tauto|].
  intros [-> | H]; [left; reflexivity|].
  destruct (eqb y x) eqn:E.
  - left. apply Hx. exact E.
  - right. apply filter_In. split; [apply IH; exact H|]. rewrite E. reflexivity.
Qed.

Lemma mapM_In {A B : Type} (f : A -> result B) (l : list A) (l' : list B)
  (x : A) (y : B) :
  mapM f l = Ok l' -> In x l -> f x = Ok y -> In y l'.
Proof.
  revert l'. induction l as [|z t IH]; intros l' H Hin Hf; simpl in H, Hin.
  - contradiction.
  - destruct (f z) as [b|e] eqn:E; [|discriminate].
    destruct (mapM f t) as [bs|e]; [|discriminate].
    injection H as <-. destruct Hin as [-> | Hin].
    + left. congruence.
    + right. apply (IH bs eq_refl Hin Hf).
Qed.

(** [sorted] compares a missing value with no other value. *)
Lemma py_sorted_missing (l : list pyval) (v : pyval) :
  In PNone l -> In v l -> v <> PNone -> exists e, py_sorted l = Raise e.
Proof.
  intros Hn Hv Hne. destruct l as [|x [|y t]].
  - contradiction.
  - destruct Hn as [Hx | []]. destruct Hv as [Hv | []]. congruence.
  - unfold py_sorted.
    assert (Hf : forallb (comparable x) (y :: t) = false).
    { destruct (forallb (comparable x) (y :: t)) eqn:E; [|reflexivity].
      destruct Hn as [-> | Hn].
      - simpl in E. discriminate.
      - pose proof (proj1 (forallb_forall _ _) E PNone Hn) as Hc.
        unfold comparable in Hc. simpl in Hc. destruct (kind x); discriminate. }
    rewrite Hf. eexists. reflexivity.
Qed.

Lemma sorted_unique_missing (d : DataFrame) (c s : string) (r1 r2 : row) :
  In r1 (rows d) -> In r2 (rows d) ->
  cell c r1 = PStr s -> cell c r2 = PNone ->
  exists e, sorted_unique d c = Raise e.
Proof.
  intros H1 H2 Hs Hn. unfold sorted_unique, col.
  destruct (has_column d c); [|eexists; reflexivity]. cbn [bind].
  unfold series_unique.
  destruct (mapM group_key (map (cell c) (rows d))) as [keys|e] eqn:E;
    [|eexists; reflexivity].
  cbn [bind].
  assert (Ks : In (Some (SStr s)) keys).
  { apply (mapM_In _ _ _ (PStr s) _ E); [|reflexivity].
    rewrite <- Hs. apply in_map. exact H1. }
  assert (Kn : In None keys).
  { apply (mapM_In _ _ _ PNone _ E); [|reflexivity].
    rewrite <- Hn. apply in_map. exact H2. }
  destruct (py_sorted_missing (map py_of_option (unique option_scalar_eqb keys))
              (PStr s)) as [e He].
  - apply (in_map py_of_option _ None). apply unique_In_exact; [|exact Kn].
    intros [y|]; [discriminate|reflexivity].
  - apply (in_map py_of_option _ (Some (SStr s))).
    apply unique_In_exact; [|exact Ks].
    intros [y|]; [|discriminate]. simpl.
    destruct y; simpl; try discriminate.
    intros Hy. apply String.eqb_eq in Hy. congruence.
  - discriminate.
  - rewrite He. eexists. reflexivity.
Qed.

(** When one of the six fields of the filter options is a string in one
    record and missing in another, [/api/filter-options] answers with
    status 500 and an error message, and no list of options; the manager is
    left as it was. *)
Theorem filter_options_fail_on_missing_value (fra_manager : store) (d : DataFrame)
  (c s : string) (r1 r2 : row) :
  df fra_manager = Some d ->
  In c string_keys ->
  In r1 (rows d) -> In r2 (rows d) ->
  cell c r1 = PStr s -> cell c r2 = PNone ->
  exists e,
    get_filter_options fra_manager = ((PDict (error_body "" e), 500), fra_manager).
Proof.
  intros Hdf Hc H1 H2 Hs Hn.
  assert (Hne : rows d <> []) by (intros E; rewrite E in H1; contradiction).
  destruct (has_data fra_manager d Hdf Hne) as [Hnd Hfr].
  destruct (sorted_unique_missing d c s r1 r2 H1 H2 Hs Hn) as [e He].
  unfold get_filter_options. rewrite Hnd, Hfr.
  unfold string_keys in Hc.
  destruct Hc as [<- | [<- | [<- | [<- | [<- | [<- | []]]]]]];
    rewrite He;
    repeat match goal with
           | |- context [bind (sorted_unique d ?k) _] =>
               destruct (sorted_unique d k); cbn [bind]
           end;
    eexists; reflexivity.
Qed.

Lemma filter_options_fail_on_missing_value_witness :
  exists e,
    get_filter_options partial_store =
    ((PDict (error_body "" e), 500), partial_store).
Proof.
  apply (filter_options_fail_on_missing_value partial_store
           (DataFrame_of partial_claims) "village" "V1" claim_A
           [("claim_id", PStr "D"); ("geometry", point 1 2)]).
  - reflexivity.
  - right. right. left. reflexivity.
  - left. reflexivity.
  - right. left. reflexivity.
  - reflexivity.
  - reflexivity.
Defined.

(** ** More criteria, fewer records *)

Lemma narrower_satisfies (fos : string -> option pyfloat) (f g : criteria) (r : row) :
  (forall k v, In k filter_keys -> active f k = Some v -> active g k = Some v) ->
  satisfies fos g r = true -> satisfies fos f r = true.
Proof.
  intros H Hg. unfold satisfies in *.
  apply andb_prop in Hg. destruct Hg as [Hg Hmax].
  apply andb_prop in Hg. destruct Hg as [Hkeys Hmin].
  apply andb_true_intro; split; [apply andb_true_intro; split|].
  - apply forallb_forall. intros k Hk.
    pose proof (proj1 (forallb_forall _ _) Hkeys k Hk) as Hh.
    unfold key_holds in *.
    destruct (active f k) as [v|] eqn:E; [|reflexivity].
    rewrite (H k v) in Hh; [exact Hh| |exact E].
    unfold string_keys in Hk. unfold filter_keys. simpl in *. tauto.
  - unfold min_holds, bound in *.
    destruct (active f "claim_area_min") as [v|] eqn:E; [|reflexivity].
    rewrite (H "claim_area_min" v) in Hmin; [exact Hmin| |exact E].
    unfold filter_keys. simpl. tauto.
  - unfold max_holds, bound in *.
    destruct (active f "claim_area_max") as [v|] eqn:E; [|reflexivity].
    rewrite (H "claim_area_max" v) in Hmax; [exact Hmax| |exact E].
    unfold filter_keys. simpl. tauto.
Qed.

(** Criteria that keep every active criterion of others, at the same
    value, and may add some, return a part of what the others return: every
    feature of the narrower listing is a feature of the wider one, and
    there are no more of them. *)
Theorem more_criteria_return_fewer_claims (fos : string -> option pyfloat)
  (self : store) (d : DataFrame) (wide narrow : option criteria) :
  df self = Some d ->
  rows d <> [] ->
  filterable fos d (criteria_of wide) = true ->
  filterable fos d (criteria_of narrow) = true ->
  (forall k v, In k filter_keys ->
               active (criteria_of wide) k = Some v ->
               active (criteria_of narrow) k = Some v) ->
  exists all some,
    fst (get_filtered_claims fos wide self) = Ok (collection all wide) /\
    fst (get_filtered_claims fos narrow self) = Ok (collection some narrow) /\
    incl some all /\
    (List.length some <= List.length all)%nat.
Proof.
  intros Hdf Hr Hw Hn Hsub.
  rewrite (get_filtered_claims_returns fos self d wide Hdf Hr Hw).
  rewrite (get_filtered_claims_returns fos self d narrow Hdf Hr Hn).
  cbn [fst]. do 2 eexists. split; [reflexivity|]. split; [reflexivity|].
  assert (Hsame : filter (satisfies fos (criteria_of narrow)) (rows d) =
                  filter (satisfies fos (criteria_of narrow))
                         (filter (satisfies fos (criteria_of wide)) (rows d))).
  { rewrite filter_filter. apply filter_ext. intros r.
    destruct (satisfies fos (criteria_of narrow) r) eqn:E.
    - rewrite (narrower_satisfies fos _ _ r Hsub E). reflexivity.
    - apply eq_sym. apply andb_false_r. }
  split.
  - intros x Hx. apply in_map_iff in Hx. destruct Hx as [r [<- Hin]].
    apply in_map. rewrite Hsame in Hin. apply filter_In in Hin. tauto.
  - rewrite !length_map. rewrite Hsame. apply filter_length_le.
Qed.

Lemma more_criteria_return_fewer_claims_witness :
  exists all some,
    fst (get_filtered_claims decimal_float (Some [("state", Some (SStr "X"))])
           sample_store) =
    Ok (collection all (Some [("state", Some (SStr "X"))])) /\
    fst (get_filtered_claims decimal_float
           (Some [("state", Some (SStr "X")); ("claim_area_min", Some (SStr "2.5"))])
           sample_store) =
    Ok (collection some
          (Some [("state", Some (SStr "X")); ("claim_area_min", Some (SStr "2.5"))])) /\
    incl some all /\
    (List.length some <= List.length all)%nat.
Proof.
  apply (more_criteria_return_fewer_claims decimal_float sample_store sample_frame
           (Some [("state", Some (SStr "X"))])
           (Some [("state", Some (SStr "X")); ("claim_area_min", Some (SStr "2.5"))])
           eq_refl ltac:(discriminate) eq_refl eq_refl).
  intros k v Hk.
  unfold filter_keys in Hk. simpl in Hk.
  repeat (destruct Hk as [<- | Hk]; [cbn; intros E; try discriminate; exact E|]).
  contradiction.
Defined.
